(** * Circles: the video-to-video-note relay bot

    A shallow embedding of the four variants of the bot kept in the
    repository, and the properties of its request pipeline:

    - [MainGo]   : src/main.go (tgbotapi, long polling, fixed temp names);
    - [Part000A] : src/unnamed/part_000, first file (go-telegram/bot,
                   [fileReader] returning a plain reader);
    - [Part000B] : src/unnamed/part_000, second file (tgbotapi with a
                   cancellation context);
    - [Part001]  : src/unnamed/part_001 (go-telegram/bot, webhook).

    Everything outside the process (Telegram, HTTP, the file system calls
    that may fail, ffmpeg) is an oracle collected in the record [Env]; the
    observable effects of a handler are collected in the record [World]. *)

From Stdlib Require Import Ascii.
From stdpp Require Import gmap strings list fin_maps pretty.

Local Open Scope Z_scope.

(** ** Go library functions used by the bot *)

Module filepath.

(** [os.IsPathSeparator] on Unix. *)
Definition IsPathSeparator (c : ascii) : bool := bool_decide (c = "/"%char).

Definition isDot (c : ascii) : bool := bool_decide (c = "."%char).

(** The loop of [filepath.Ext]: [rpath] is [path[:i+1]] reversed and
    [acc] is [path[i+1:]]; the index runs down from the last byte while
    the byte is not a separator, and the suffix from the first dot met is
    returned. *)
Fixpoint ext_scan (rpath : string) (acc : string) : string :=
  match rpath with
  | EmptyString => ""
  | String c r =>
      if IsPathSeparator c then ""
      else if isDot c then String c acc
      else ext_scan r (String c acc)
  end.

Definition Ext (path : string) : string := ext_scan (String.rev path) "".

(** [r == n || IsPathSeparator(path[r])] for the rest [path[r:]]. *)
Definition atElemEnd (rest : string) : bool :=
  match rest with
  | EmptyString => true
  | String c _ => IsPathSeparator c
  end.

(** The inner loop of the default case of [Clean]: copy one element to
    the output buffer (kept reversed). *)
Fixpoint copyElem (path : string) (out : list ascii) : string * list ascii :=
  match path with
  | EmptyString => (path, out)
  | String c rest =>
      if IsPathSeparator c then (path, out) else copyElem rest (c :: out)
  end.

(** The backtracking loop of the [..] case, after the first [out.w--]:
    [cur] is the byte at index [out.w]. *)
Fixpoint backtrack (dotdot : nat) (cur : ascii) (out : list ascii) : list ascii :=
  match out with
  | [] => []
  | c :: out' =>
      if bool_decide (dotdot < length out)%nat && negb (IsPathSeparator cur)
      then backtrack dotdot c out'
      else out
  end.

(** The main loop of [Clean]. [path] is [path[r:]], [out] the output
    buffer reversed (so [out.w = length out]). Every round consumes at
    least one byte, so [fuel = length path] is enough. *)
Fixpoint cleanLoop (fuel : nat) (rooted : bool) (path : string)
    (out : list ascii) (dotdot : nat) : list ascii :=
  match fuel with
  | O => out
  | S fuel =>
      match path with
      | EmptyString => out
      | String c rest =>
          if IsPathSeparator c then
            cleanLoop fuel rooted rest out dotdot
          else if isDot c && atElemEnd rest then
            cleanLoop fuel rooted rest out dotdot
          else
            match rest with
            | String c1 rest2 =>
                if isDot c && isDot c1 && atElemEnd rest2 then
                  if bool_decide (dotdot < length out)%nat then
                    match out with
                    | c0 :: out' =>
                        cleanLoop fuel rooted rest2 (backtrack dotdot c0 out') dotdot
                    | [] => cleanLoop fuel rooted rest2 out dotdot
                    end
                  else if negb rooted then
                    let out1 :=
                      if bool_decide (0 < length out)%nat
                      then "/"%char :: out else out in
                    let out2 := "."%char :: "."%char :: out1 in
                    cleanLoop fuel rooted rest2 out2 (length out2)
                  else cleanLoop fuel rooted rest2 out dotdot
                else
                  let out1 :=
                    if (rooted && negb (bool_decide (length out = 1%nat)))
                       || (negb rooted && negb (bool_decide (length out = 0%nat)))
                    then "/"%char :: out else out in
                  let '(rest', out2) := copyElem path out1 in
                  cleanLoop fuel rooted rest' out2 dotdot
            | EmptyString =>
                let out1 :=
                  if (rooted && negb (bool_decide (length out = 1%nat)))
                     || (negb rooted && negb (bool_decide (length out = 0%nat)))
                  then "/"%char :: out else out in
                let '(rest', out2) := copyElem path out1 in
                cleanLoop fuel rooted rest' out2 dotdot
            end
      end
  end.

Definition string_of_rev (out : list ascii) : string :=
  fold_left (fun s c => String c s) out "".

(** [filepath.Clean] on Unix (no volume name, [FromSlash] the identity). *)
Definition Clean (path : string) : string :=
  match path with
  | EmptyString => "."
  | String c rest =>
      let rooted := IsPathSeparator c in
      let out :=
        if rooted
        then cleanLoop (String.length path) rooted rest ["/"%char] 1
        else cleanLoop (String.length path) rooted path [] 0 in
      match out with
      | [] => "."
      | _ => string_of_rev out
      end
  end.

(** [strings.Join(elem, "/")]. *)
Fixpoint joinSep (elem : list string) : string :=
  match elem with
  | [] => ""
  | [e] => e
  | e :: rest => e +:+ "/" +:+ joinSep rest
  end.

(** [filepath.Join] on Unix: the elements from the first non-empty one
    on, joined by the separator and cleaned. *)
Fixpoint Join (elem : list string) : string :=
  match elem with
  | [] => ""
  | e :: rest =>
      if bool_decide (e = "") then Join rest else Clean (joinSep elem)
  end.

(** [p] is [dir] itself or lies below it (both cleaned paths). *)
Definition under (dir p : string) : bool :=
  bool_decide (p = dir) || String.prefix (dir +:+ "/") p.

End filepath.

(** [fmt.Sprintf] with the verb [%d] on an [int64]: decimal digits with a
    leading minus sign for negative numbers. *)
Definition fmt_d (n : Z) : string := pretty n.

(** ** Data of a request *)

(** A Go [error]: [None] is [nil], [Some s] an error whose [Error()] is [s]. *)
Abbreviation error := (option string).

(** A Go pair [(T, error)] of which exactly one side is meaningful. *)
Inductive result (A : Type) : Type :=
  | Ok (a : A)
  | Err (msg : string).
Arguments Ok {A} a.
Arguments Err {A} msg.

(** [models.Video] / [models.Document] ([tgbotapi.Video], [tgbotapi.Document]):
    the fields the bot reads. *)
Record Attachment := { FileID : string; FileName : string }.

(** [models.Message] / [tgbotapi.Message]; [chatID] is [Chat.ID]. *)
Record Message := {
  chatID : Z;
  Video : option Attachment;
  Document : option Attachment
}.

(** [models.Update] / [tgbotapi.Update]. *)
Record Update := { updMessage : option Message }.

(** A [context.Context] made by [context.WithCancel]. *)
Inductive Context := CancelCtx (id : nat).

(** The case a [select] over the update channel and [ctx.Done()] takes. *)
Inductive SelectCase :=
  | RecvUpdate (update : Update)
  | CtxDone.

(** What is handed over as the video note: an upload of bytes read by the
    bot ([models.InputFileUpload]) or a path the client library reads
    ([tgbotapi.FilePath]). *)
Inductive InputFile :=
  | InputFileUpload (Filename Data : string)
  | FilePath (path : string).

Record VideoNote := { vnChatID : Z; vnLength : Z; vnFile : InputFile }.

(** An [exec.Cmd]: the context given to [exec.CommandContext] (none for
    [exec.Command]), the program name and its arguments. *)
Record Cmd := { cmdCtx : option Context; cmdName : string; cmdArgs : list string }.

Record Response := { StatusCode : Z; Body : string }.

(** ** The world outside *)

(** The answers of everything the handlers call out to. *)
Record Env := {
  env_TMPDIR : string;                        (* $TMPDIR *)
  env_Token : string;                         (* the bot token *)
  env_GetFile : string -> result string;      (* file ID to remote FilePath *)
  env_httpGet : string -> result Response;    (* URL to response; Err: transport error *)
  env_Create : string -> error;               (* os.Create on a path *)
  env_Copy : option (nat * string);           (* io.Copy failing after n bytes *)
  env_StderrPipe : error;                     (* cmd.StderrPipe *)
  env_Start : error;                          (* cmd.Start *)
  env_written : option string;                (* file left by ffmpeg running to its end *)
  env_exit : error;                           (* its exit status, as cmd.Wait reports it *)
  env_done : Context -> bool;                 (* context cancelled while ffmpeg runs *)
  env_partial : option string;                (* file left by ffmpeg when killed *)
  env_Open : string -> error;                 (* os.Open failing on an existing file *)
  env_SendVideoNote : error                   (* the answer to sending the video note *)
}.

(** The effects of the handlers: the files of the temp directory (path to
    content), the text messages handed to the client for sending (their
    results are discarded by the code), the video notes handed over, the
    external processes started, the goroutines started. *)
Record World := {
  fs : gmap string string;
  sent : list (Z * string);
  notes : list VideoNote;
  execs : list Cmd;
  spawned : list (Context * Message)
}.

Definition emptyWorld : World :=
  {| fs := ∅; sent := []; notes := []; execs := []; spawned := [] |}.

Definition with_fs (f : gmap string string) (w : World) : World :=
  {| fs := f; sent := sent w; notes := notes w; execs := execs w;
     spawned := spawned w |}.

(** Handing a text message to the client (result discarded by every caller). *)
Definition SendMessage (chat : Z) (text : string) (w : World) : World :=
  {| fs := fs w; sent := sent w ++ [(chat, text)]; notes := notes w;
     execs := execs w; spawned := spawned w |}.

(** Handing a video note to the client; the answer is the oracle's. *)
Definition SendVideoNote (E : Env) (vn : VideoNote) (w : World) : error * World :=
  (env_SendVideoNote E,
   {| fs := fs w; sent := sent w; notes := notes w ++ [vn];
      execs := execs w; spawned := spawned w |}).

(** [go handleVideo(ctx, b, message)]. *)
Definition go_handleVideo (ctx : Context) (m : Message) (w : World) : World :=
  {| fs := fs w; sent := sent w; notes := notes w; execs := execs w;
     spawned := spawned w ++ [(ctx, m)] |}.

(** [os.TempDir] on Unix. *)
Definition os_TempDir (E : Env) : string :=
  if bool_decide (env_TMPDIR E = "") then "/tmp" else env_TMPDIR E.

(** [os.Remove]; its error is discarded by every caller. *)
Definition os_Remove (path : string) (w : World) : World :=
  with_fs (delete path (fs w)) w.

(** [os.Create]: creates or truncates. *)
Definition os_Create (E : Env) (path : string) (w : World) : error * World :=
  match env_Create E path with
  | Some e => (Some e, w)
  | None => (None, with_fs (<[path := ""]> (fs w)) w)
  end.

(** [io.Copy(out, resp.Body)] into the file at [path]. *)
Definition io_Copy (E : Env) (path : string) (body : string) (w : World)
    : error * World :=
  match env_Copy E with
  | Some (n, e) => (Some e, with_fs (<[path := String.substring 0 n body]> (fs w)) w)
  | None => (None, with_fs (<[path := body]> (fs w)) w)
  end.

(** [os.Open]: the content of the file, or an error. *)
Definition os_Open (E : Env) (path : string) (w : World) : result string :=
  match env_Open E path with
  | Some e => Err e
  | None =>
      match fs w !! path with
      | Some data => Ok data
      | None => Err "open: no such file or directory"
      end
  end.

(** The file a process leaves at its output path (the last argument of the
    ffmpeg command line). *)
Definition leave (cmd : Cmd) (content : option string) (w : World) : World :=
  match content, last (cmdArgs cmd) with
  | Some data, Some out => with_fs (<[out := data]> (fs w)) w
  | _, _ => w
  end.

(** [cmd.Start]. *)
Definition cmd_Start (E : Env) (cmd : Cmd) (w : World) : error * World :=
  (env_Start E,
   {| fs := fs w; sent := sent w; notes := notes w;
      execs := execs w ++ [cmd]; spawned := spawned w |}).

(** [cmd.Wait] after a successful start. A command made by
    [exec.CommandContext] is killed when its context is done before the
    process ends and [Wait] then returns an error; a command made by
    [exec.Command] runs to its end. *)
Definition cmd_Wait (E : Env) (cmd : Cmd) (w : World) : error * World :=
  match cmdCtx cmd with
  | Some c =>
      if env_done E c
      then (Some "signal: killed", leave cmd (env_partial E) w)
      else (env_exit E, leave cmd (env_written E) w)
  | None => (env_exit E, leave cmd (env_written E) w)
  end.

(** [cmd.Run]: [Start] then [Wait]. *)
Definition cmd_Run (E : Env) (cmd : Cmd) (w : World) : error * World :=
  let '(err, w) := cmd_Start E cmd w in
  match err with
  | Some e => (Some e, w)
  | None => cmd_Wait E cmd w
  end.

(** Leaving a function: the deferred calls run last in, first out. *)
Definition return_ (defers : list (World -> World)) (w : World) : World :=
  fold_left (fun w d => d w) defers w.

(** ** src/main.go: long polling with tgbotapi, fixed temp names *)

Module MainGo.

(** Lines 79-96. [http.Get] fails on a transport error only: the status
    code of the response is not looked at. *)
Definition downloadFile (E : Env) (filePath destPath : string) (w : World)
    : error * World :=
  let url := "https://api.telegram.org/file/bot" +:+ env_Token E +:+ "/" +:+ filePath in
  match env_httpGet E url with
  | Err e => (Some e, w)
  | Ok resp =>
      let '(err, w) := os_Create E destPath w in
      match err with
      | Some e => (Some e, w)
      | None => io_Copy E destPath (Body resp) w
      end
  end.

(** Lines 98-108: [exec.Command], no context. *)
Definition makeCircularVideo (E : Env) (inputPath outputPath : string) (w : World)
    : error * World :=
  let cmd :=
    {| cmdCtx := None;
       cmdName := "ffmpeg";
       cmdArgs := ["-i"; inputPath;
                   "-vf"; "crop=min(iw\,ih):min(iw\,ih),scale=640:640,format=yuv420p";
                   "-c:a"; "copy";
                   "-y";
                   outputPath] |} in
  cmd_Run E cmd w.

(** Lines 45-77. [message.Video] is dereferenced at once: on a message
    without a video the function panics ([None]). Errors are logged only. *)
Definition handleVideo (E : Env) (message : Message) (w : World) : option World :=
  match Video message with
  | None => None
  | Some video =>
      let fileID := FileID video in
      match env_GetFile E fileID with
      | Err _ => Some w
      | Ok file =>
          let inputPath := filepath.Join [os_TempDir E; "input.mp4"] in
          let '(err, w) := downloadFile E file inputPath w in
          match err with
          | Some _ => Some w
          | None =>
              let defers := [os_Remove inputPath] in
              let outputPath := filepath.Join [os_TempDir E; "output.mp4"] in
              let '(err, w) := makeCircularVideo E inputPath outputPath w in
              match err with
              | Some _ => Some (return_ defers w)
              | None =>
                  let defers := os_Remove outputPath :: defers in
                  let videoNote :=
                    {| vnChatID := chatID message; vnLength := 640;
                       vnFile := FilePath outputPath |} in
                  let '(_, w) := SendVideoNote E videoNote w in
                  Some (return_ defers w)
              end
          end
      end
  end.

(** Lines 34-42: the body of the update loop of [main] for one update. *)
Definition main_update (E : Env) (update : Update) (w : World) : option World :=
  match updMessage update with
  | None => Some w
  | Some message =>
      match Video message with
      | Some _ => handleVideo E message w
      | None => Some w
      end
  end.

End MainGo.

(** ** src/unnamed/part_000, first file: go-telegram/bot *)

Module Part000A.

Definition defaultVideoSize : Z := 640.
Definition voiceMsgRestrictionErr : string := "Bad Request: VOICE_MESSAGES_FORBIDDEN".

(** Lines 198-204. *)
Definition sendErrorMessage (ctx : Context) (chat : Z) (text : string) (w : World)
    : World :=
  SendMessage chat text w.

(** Lines 206-212. *)
Definition sendProgressMessage (ctx : Context) (chat : Z) (text : string) (w : World)
    : World :=
  SendMessage chat text w.

(** Lines 149-165. *)
Definition downloadFile (E : Env) (filePath destPath : string) (w : World)
    : error * World :=
  let url := "https://api.telegram.org/file/bot" +:+ env_Token E +:+ "/" +:+ filePath in
  match env_httpGet E url with
  | Err e => (Some e, w)
  | Ok resp =>
      let '(err, w) := os_Create E destPath w in
      match err with
      | Some e => (Some e, w)
      | None => io_Copy E destPath (Body resp) w
      end
  end.

(** Lines 167-189; [logFFmpegProgress] only writes to the log. *)
Definition makeCircularVideo (E : Env) (ctx : Context) (inputPath outputPath : string)
    (w : World) : error * World :=
  let cmd :=
    {| cmdCtx := Some ctx;
       cmdName := "ffmpeg";
       cmdArgs := ["-i"; inputPath;
                   "-vf"; "crop=min(iw\,ih):min(iw\,ih),scale=" +:+ fmt_d defaultVideoSize
                          +:+ ":" +:+ fmt_d defaultVideoSize +:+ ",format=yuv420p";
                   "-c:a"; "copy";
                   "-y";
                   outputPath] |} in
  match env_StderrPipe E with
  | Some e => (Some e, w)
  | None =>
      let '(err, w) := cmd_Start E cmd w in
      match err with
      | Some e => (Some e, w)
      | None => cmd_Wait E cmd w
      end
  end.

(** Lines 214-220: an empty reader when the file cannot be opened. *)
Definition fileReader (E : Env) (path : string) (w : World) : string :=
  match os_Open E path w with
  | Err _ => ""
  | Ok f => f
  end.

(** Lines 93-97. *)
Definition normalize (fileName : string) : string :=
  if bool_decide (fileName = "") then "video.mp4"
  else if bool_decide (filepath.Ext fileName = "") then fileName +:+ ".mp4"
  else fileName.

(** Lines 77-147. *)
Definition handleVideo (E : Env) (ctx : Context) (message : Message) (w : World)
    : World :=
  let chatID := chatID message in
  match
    match Video message, Document message with
    | Some video, _ => Some (FileID video, FileName video)
    | None, Some document => Some (FileID document, FileName document)
    | None, None => None
    end
  with
  | None => sendErrorMessage ctx chatID "Please send a valid video file." w
  | Some (fileID, fileName) =>
  let fileName := normalize fileName in
  match env_GetFile E fileID with
  | Err _ =>
      sendErrorMessage ctx chatID "Failed to process the video. Please try again." w
  | Ok file =>
  let inputPath :=
    filepath.Join [os_TempDir E; "input_" +:+ fmt_d chatID +:+ "_" +:+ fileName] in
  let '(err, w) := downloadFile E file inputPath w in
  match err with
  | Some _ =>
      sendErrorMessage ctx chatID "Failed to download the video. Please try again." w
  | None =>
  let defers := [os_Remove inputPath] in
  let w := sendProgressMessage ctx chatID "Video downloaded. Processing..." w in
  let outputPath := filepath.Join [os_TempDir E; "output_" +:+ fileName] in
  let '(err, w) := makeCircularVideo E ctx inputPath outputPath w in
  match err with
  | Some _ =>
      return_ defers
        (sendErrorMessage ctx chatID "Failed to process the video. Please try again." w)
  | None =>
  let defers := os_Remove outputPath :: defers in
  let w := sendProgressMessage ctx chatID "Video processed. Sending..." w in
  let videoNoteParams :=
    {| vnChatID := chatID;
       vnFile := InputFileUpload fileName (fileReader E outputPath w);
       vnLength := defaultVideoSize |} in
  let '(err, w) := SendVideoNote E videoNoteParams w in
  match err with
  | Some e =>
      if bool_decide (e = voiceMsgRestrictionErr) then
        return_ defers
          (sendErrorMessage ctx chatID
             "It seems that I don't have permission to send video notes. Please check if you allow sending voice messages in the settings." w)
      else
        return_ defers
          (sendErrorMessage ctx chatID
             "Failed to send the processed video. Please try again." w)
  | None => return_ defers w
  end end end end end.

(** Lines 62-75. *)
Definition defaultHandler (ctx : Context) (update : Update) (w : World) : World :=
  match updMessage update with
  | None => w
  | Some message =>
      if bool_decide (Video message <> None) || bool_decide (Document message <> None)
      then go_handleVideo ctx message w
      else SendMessage (chatID message) "Please send a video file to make it circular." w
  end.

End Part000A.

(** ** src/unnamed/part_000, second file: tgbotapi with a context *)

Module Part000B.

Definition defaultVideoSize : Z := 640.

(** Lines 404-407. *)
Definition sendErrorMessage (chat : Z) (text : string) (w : World) : World :=
  SendMessage chat text w.

(** Lines 409-412. *)
Definition sendProgressMessage (chat : Z) (text : string) (w : World) : World :=
  SendMessage chat text w.

(** Lines 354-371. *)
Definition downloadFile (E : Env) (filePath destPath : string) (w : World)
    : error * World :=
  let url := "https://api.telegram.org/file/bot" +:+ env_Token E +:+ "/" +:+ filePath in
  match env_httpGet E url with
  | Err e => (Some e, w)
  | Ok resp =>
      let '(err, w) := os_Create E destPath w in
      match err with
      | Some e => (Some e, w)
      | None => io_Copy E destPath (Body resp) w
      end
  end.

(** Lines 373-395. *)
Definition makeCircularVideo (E : Env) (ctx : Context) (inputPath outputPath : string)
    (w : World) : error * World :=
  let cmd :=
    {| cmdCtx := Some ctx;
       cmdName := "ffmpeg";
       cmdArgs := ["-i"; inputPath;
                   "-vf"; "crop=min(iw\,ih):min(iw\,ih),scale=" +:+ fmt_d defaultVideoSize
                          +:+ ":" +:+ fmt_d defaultVideoSize +:+ ",format=yuv420p";
                   "-c:a"; "copy";
                   "-y";
                   outputPath] |} in
  match env_StderrPipe E with
  | Some e => (Some e, w)
  | None =>
      let '(err, w) := cmd_Start E cmd w in
      match err with
      | Some e => (Some e, w)
      | None => cmd_Wait E cmd w
      end
  end.

(** Lines 310-314. *)
Definition normalize (fileName : string) : string :=
  if bool_decide (fileName = "") then "video.mp4"
  else if bool_decide (filepath.Ext fileName = "") then fileName +:+ ".mp4"
  else fileName.

(** Lines 293-352. *)
Definition handleVideo (E : Env) (ctx : Context) (message : Message) (w : World)
    : World :=
  let chatID := chatID message in
  match
    match Video message, Document message with
    | Some video, _ => Some (FileID video, FileName video)
    | None, Some document => Some (FileID document, FileName document)
    | None, None => None
    end
  with
  | None => sendErrorMessage chatID "Please send a valid video file." w
  | Some (fileID, fileName) =>
  let fileName := normalize fileName in
  match env_GetFile E fileID with
  | Err _ =>
      sendErrorMessage chatID "Failed to process the video. Please try again." w
  | Ok file =>
  let inputPath :=
    filepath.Join [os_TempDir E; "input_" +:+ fmt_d chatID +:+ "_" +:+ fileName] in
  let '(err, w) := downloadFile E file inputPath w in
  match err with
  | Some _ =>
      sendErrorMessage chatID "Failed to download the video. Please try again." w
  | None =>
  let defers := [os_Remove inputPath] in
  let w := sendProgressMessage chatID "Video downloaded. Processing..." w in
  let outputPath := filepath.Join [os_TempDir E; "output_" +:+ fileName] in
  let '(err, w) := makeCircularVideo E ctx inputPath outputPath w in
  match err with
  | Some _ =>
      return_ defers
        (sendErrorMessage chatID "Failed to process the video. Please try again." w)
  | None =>
  let defers := os_Remove outputPath :: defers in
  let w := sendProgressMessage chatID "Video processed. Sending..." w in
  let videoNote :=
    {| vnChatID := chatID; vnLength := defaultVideoSize;
       vnFile := FilePath outputPath |} in
  let '(err, w) := SendVideoNote E videoNote w in
  match err with
  | Some _ =>
      return_ defers
        (sendErrorMessage chatID
           "Failed to send the processed video. Please try again." w)
  | None => return_ defers w
  end end end end end.

(** Lines 275-285: the body of the update loop of [main] for one update. *)
Definition main_update (ctx : Context) (update : Update) (w : World) : World :=
  match updMessage update with
  | None => w
  | Some message =>
      if bool_decide (Video message <> None) || bool_decide (Document message <> None)
      then go_handleVideo ctx message w
      else SendMessage (chatID message) "Please send a video file to make it circular." w
  end.

(** Lines 273-290: the loop of [main]. Each round the [select] takes an
    update or the closed [ctx.Done()]; on the latter [main] returns (the
    flag is [true]) without waiting for the goroutines it has started.
    With no case left the loop is still waiting (the flag is [false]). *)
Fixpoint main_loop (ctx : Context) (cases : list SelectCase) (w : World)
    : World * bool :=
  match cases with
  | [] => (w, false)
  | RecvUpdate update :: rest => main_loop ctx rest (main_update ctx update w)
  | CtxDone :: _ => (w, true)
  end.

End Part000B.

(** ** src/unnamed/part_001: go-telegram/bot behind a webhook *)

Module Part001.

Definition defaultVideoSize : Z := 640.
Definition voiceMsgRestrictionErr : string := "Bad Request: VOICE_MESSAGES_FORBIDDEN".

(** Lines 231-237. *)
Definition sendErrorMessage (ctx : Context) (chat : Z) (text : string) (w : World)
    : World :=
  SendMessage chat text w.

(** Lines 239-245. *)
Definition sendProgressMessage (ctx : Context) (chat : Z) (text : string) (w : World)
    : World :=
  SendMessage chat text w.

(** Lines 182-198. *)
Definition downloadFile (E : Env) (filePath destPath : string) (w : World)
    : error * World :=
  let url := "https://api.telegram.org/file/bot" +:+ env_Token E +:+ "/" +:+ filePath in
  match env_httpGet E url with
  | Err e => (Some e, w)
  | Ok resp =>
      let '(err, w) := os_Create E destPath w in
      match err with
      | Some e => (Some e, w)
      | None => io_Copy E destPath (Body resp) w
      end
  end.

(** Lines 200-222. *)
Definition makeCircularVideo (E : Env) (ctx : Context) (inputPath outputPath : string)
    (w : World) : error * World :=
  let cmd :=
    {| cmdCtx := Some ctx;
       cmdName := "ffmpeg";
       cmdArgs := ["-i"; inputPath;
                   "-vf"; "crop=min(iw\,ih):min(iw\,ih),scale=" +:+ fmt_d defaultVideoSize
                          +:+ ":" +:+ fmt_d defaultVideoSize +:+ ",format=yuv420p";
                   "-c:a"; "copy";
                   "-y";
                   outputPath] |} in
  match env_StderrPipe E with
  | Some e => (Some e, w)
  | None =>
      let '(err, w) := cmd_Start E cmd w in
      match err with
      | Some e => (Some e, w)
      | None => cmd_Wait E cmd w
      end
  end.

(** Lines 247-249. *)
Definition fileReader (E : Env) (path : string) (w : World) : result string :=
  os_Open E path w.

(** Lines 118-122. *)
Definition normalize (fileName : string) : string :=
  if bool_decide (fileName = "") then "video.mp4"
  else if bool_decide (filepath.Ext fileName = "") then fileName +:+ ".mp4"
  else fileName.

(** Lines 102-180. The deferred [f.Close()] has no effect on the world. *)
Definition handleVideo (E : Env) (ctx : Context) (message : Message) (w : World)
    : World :=
  let chatID := chatID message in
  match
    match Video message, Document message with
    | Some video, _ => Some (FileID video, FileName video)
    | None, Some document => Some (FileID document, FileName document)
    | None, None => None
    end
  with
  | None => sendErrorMessage ctx chatID "Please send a valid video file." w
  | Some (fileID, fileName) =>
  let fileName := normalize fileName in
  match env_GetFile E fileID with
  | Err _ =>
      sendErrorMessage ctx chatID "Failed to process the video. Please try again." w
  | Ok file =>
  let inputPath :=
    filepath.Join [os_TempDir E; "input_" +:+ fmt_d chatID +:+ "_" +:+ fileName] in
  let '(err, w) := downloadFile E file inputPath w in
  match err with
  | Some _ =>
      sendErrorMessage ctx chatID "Failed to download the video. Please try again." w
  | None =>
  let defers := [os_Remove inputPath] in
  let w := sendProgressMessage ctx chatID "Video downloaded. Processing..." w in
  let outputPath := filepath.Join [os_TempDir E; "output_" +:+ fileName] in
  let '(err, w) := makeCircularVideo E ctx inputPath outputPath w in
  match err with
  | Some _ =>
      return_ defers
        (sendErrorMessage ctx chatID "Failed to process the video. Please try again." w)
  | None =>
  let defers := os_Remove outputPath :: defers in
  let w := sendProgressMessage ctx chatID "Video processed. Sending..." w in
  match fileReader E outputPath w with
  | Err _ =>
      return_ defers
        (sendErrorMessage ctx chatID
           "Failed to open the processed video. Please try again." w)
  | Ok f =>
  let defers := (fun w : World => w) :: defers in
  let videoNoteParams :=
    {| vnChatID := chatID;
       vnFile := InputFileUpload fileName f;
       vnLength := defaultVideoSize |} in
  let '(err, w) := SendVideoNote E videoNoteParams w in
  match err with
  | Some e =>
      if bool_decide (e = voiceMsgRestrictionErr) then
        return_ defers
          (sendErrorMessage ctx chatID
             "It seems that I don't have permission to send video notes. Please check if you allow sending voice messages in the settings." w)
      else
        return_ defers
          (sendErrorMessage ctx chatID
             "Failed to send the processed video. Please try again." w)
  | None => return_ defers w
  end end end end end end.

(** Lines 87-100. *)
Definition defaultHandler (ctx : Context) (update : Update) (w : World) : World :=
  match updMessage update with
  | None => w
  | Some message =>
      if bool_decide (Video message <> None) || bool_decide (Document message <> None)
      then go_handleVideo ctx message w
      else SendMessage (chatID message) "Please send a video file to make it circular." w
  end.

End Part001.

(** ** The three variants that name their temp files after the request *)

Inductive Variant := V000A | V000B | V001.

Definition normalizeOf (v : Variant) : string -> string :=
  match v with
  | V000A => Part000A.normalize
  | V000B => Part000B.normalize
  | V001 => Part001.normalize
  end.

Definition handleVideoOf (v : Variant) : Env -> Context -> Message -> World -> World :=
  match v with
  | V000A => Part000A.handleVideo
  | V000B => Part000B.handleVideo
  | V001 => Part001.handleVideo
  end.

Definition makeCircularVideoOf (v : Variant)
    : Env -> Context -> string -> string -> World -> error * World :=
  match v with
  | V000A => Part000A.makeCircularVideo
  | V000B => Part000B.makeCircularVideo
  | V001 => Part001.makeCircularVideo
  end.

Definition downloadFileOf (v : Variant)
    : Env -> string -> string -> World -> error * World :=
  match v with
  | V000A => Part000A.downloadFile
  | V000B => Part000B.downloadFile
  | V001 => Part001.downloadFile
  end.

(** The adapter of each variant: [defaultHandler], or the loop body of [main]. *)
Definition dispatchOf (v : Variant) : Context -> Update -> World -> World :=
  match v with
  | V000A => Part000A.defaultHandler
  | V000B => Part000B.main_update
  | V001 => Part001.defaultHandler
  end.

(** The attachment a message is handled for: the video, else the document. *)
Definition attachment (m : Message) : option Attachment :=
  match Video m with
  | Some video => Some video
  | None => Document m
  end.

(** The temp paths of a request with the (normalized) name [fileName]. *)
Definition inputPath (E : Env) (chat : Z) (fileName : string) : string :=
  filepath.Join [os_TempDir E; "input_" +:+ fmt_d chat +:+ "_" +:+ fileName].

Definition outputPath (E : Env) (fileName : string) : string :=
  filepath.Join [os_TempDir E; "output_" +:+ fileName].

(** The ffmpeg command line the specification documents. *)
Definition ffmpegArgs (input output : string) : list string :=
  ["-i"; input;
   "-vf"; "crop=min(iw\,ih):min(iw\,ih),scale=640:640,format=yuv420p";
   "-c:a"; "copy";
   "-y";
   output].

Definition ffmpegCmd (ctx : option Context) (input output : string) : Cmd :=
  {| cmdCtx := ctx; cmdName := "ffmpeg"; cmdArgs := ffmpegArgs input output |}.

(** The fixed texts. *)
Definition txtInstruction : string := "Please send a video file to make it circular.".
Definition txtDownloaded : string := "Video downloaded. Processing...".
Definition txtProcessed : string := "Video processed. Sending...".
Definition txtDownloadFailed : string := "Failed to download the video. Please try again.".
Definition txtProcessFailed : string := "Failed to process the video. Please try again.".
Definition txtOpenFailed : string := "Failed to open the processed video. Please try again.".
Definition txtSendFailed : string := "Failed to send the processed video. Please try again.".
Definition txtForbidden : string :=
  "It seems that I don't have permission to send video notes. Please check if you allow sending voice messages in the settings.".
Definition voiceMsgRestrictionErr : string := "Bad Request: VOICE_MESSAGES_FORBIDDEN".

(** When [downloadFile] returns [nil]. *)
Definition downloadOK (E : Env) (filePath destPath : string) : Prop :=
  (exists resp,
      env_httpGet E ("https://api.telegram.org/file/bot" +:+ env_Token E +:+ "/" +:+ filePath)
      = Ok resp)
  /\ env_Create E destPath = None
  /\ env_Copy E = None.

(** When [makeCircularVideo] with context [ctx] returns [nil]. *)
Definition transcodeOK (E : Env) (ctx : Context) : Prop :=
  env_StderrPipe E = None /\ env_Start E = None
  /\ env_done E ctx = false /\ env_exit E = None.

(** ** Sample requests and environments *)

Definition mkEnv (http : result Response) (copy : option (nat * string))
    (written : option string) (exit : error) (done : bool)
    (open upload : error) : Env :=
  {| env_TMPDIR := ""; env_Token := "TOKEN";
     env_GetFile := fun _ => Ok "videos/file_1.mp4";
     env_httpGet := fun _ => http;
     env_Create := fun _ => None; env_Copy := copy;
     env_StderrPipe := None; env_Start := None;
     env_written := written; env_exit := exit;
     env_done := fun _ => done; env_partial := Some "partial";
     env_Open := fun _ => open; env_SendVideoNote := upload |}.

Definition rawVideo : result Response := Ok {| StatusCode := 200; Body := "raw video" |}.

(** Everything succeeds. *)
Definition envOK : Env := mkEnv rawVideo None (Some "round video") None false None None.

(** The file server answers 404 with an error page; ffmpeg rejects it. *)
Definition env404 : Env :=
  mkEnv (Ok {| StatusCode := 404; Body := "Not Found" |}) None None
        (Some "exit status 1") false None None.

(** The connection breaks after four bytes of the download. *)
Definition envCopyBroken : Env :=
  mkEnv rawVideo (Some (4%nat, "unexpected EOF")) (Some "round video") None false None None.

(** ffmpeg starts writing its output, then exits with an error. *)
Definition envTranscodeFails : Env :=
  mkEnv rawVideo None (Some "half a video") (Some "exit status 1") false None None.

(** The shutdown signal fires while ffmpeg runs. *)
Definition envShutdown : Env :=
  mkEnv rawVideo None (Some "round video") None true None None.

(** The output file cannot be opened. *)
Definition envOpenFails : Env :=
  mkEnv rawVideo None (Some "round video") None false (Some "permission denied") None.

(** The chat forbids voice and video-note messages. *)
Definition envForbidden : Env :=
  mkEnv rawVideo None (Some "round video") None false None
        (Some "Bad Request: VOICE_MESSAGES_FORBIDDEN").

(** Another upload error. *)
Definition envUploadFails : Env :=
  mkEnv rawVideo None (Some "round video") None false None (Some "Bad Request: file is too big").

Definition ctx0 : Context := CancelCtx 0.

Definition videoMsg (chat : Z) (name : string) : Message :=
  {| chatID := chat; Video := Some {| FileID := "file-id"; FileName := name |};
     Document := None |}.

Definition textMsg (chat : Z) : Message :=
  {| chatID := chat; Video := None; Document := None |}.

(** The text sent when the upload fails with the error string [e]. *)
Definition uploadFailureText (v : Variant) (e : string) : string :=
  match v with
  | V000B => txtSendFailed
  | V000A | V001 =>
      if bool_decide (e = voiceMsgRestrictionErr) then txtForbidden else txtSendFailed
  end.

(** ** Further texts, requests and environments *)

Definition txtInvalid : string := "Please send a valid video file.".

(** The texts that report a failure to the user. *)
Definition failureTexts : list string :=
  [txtInvalid; txtProcessFailed; txtDownloadFailed; txtOpenFailed; txtSendFailed;
   txtForbidden].

Definition isFailureText (ct : Z * string) : bool :=
  bool_decide (ct.2 ∈ failureTexts).

(** The message with its document taken away. *)
Definition withoutDocument (m : Message) : Message :=
  {| chatID := chatID m; Video := Video m; Document := None |}.

(** How each variant hands the transcoded file to the client. *)
Definition noteFile (v : Variant) (name data out : string) : InputFile :=
  match v with
  | V000B => FilePath out
  | V000A | V001 => InputFileUpload name data
  end.

(** Telegram does not know the file. *)
Definition envNoFile : Env :=
  {| env_TMPDIR := ""; env_Token := "TOKEN";
     env_GetFile := fun _ => Err "Bad Request: invalid file_id";
     env_httpGet := fun _ => rawVideo;
     env_Create := fun _ => None; env_Copy := None;
     env_StderrPipe := None; env_Start := None;
     env_written := Some "round video"; env_exit := None;
     env_done := fun _ => false; env_partial := None;
     env_Open := fun _ => None; env_SendVideoNote := None |}.

(** The file server cannot be reached. *)
Definition envOffline : Env :=
  mkEnv (Err "dial tcp: connection refused") None (Some "round video") None false
        None None.

(** A message that carries a video and a document. *)
Definition bothMsg (chat : Z) (videoName docName : string) : Message :=
  {| chatID := chat;
     Video := Some {| FileID := "video-id"; FileName := videoName |};
     Document := Some {| FileID := "doc-id"; FileName := docName |} |}.

(** * Properties *)

(** ** The library functions on sample inputs *)

Example Ext_ex1 : filepath.Ext "clip.mov" = ".mov".
Proof. reflexivity. Qed.

Example Ext_ex2 : filepath.Ext "clip" = "".
Proof. reflexivity. Qed.

Example Ext_ex3 : filepath.Ext "a.b/clip" = "".
Proof. reflexivity. Qed.

Example Ext_ex4 : filepath.Ext "clip." = ".".
Proof. reflexivity. Qed.

Example Ext_ex5 : filepath.Ext "a.tar.gz" = ".gz".
Proof. reflexivity. Qed.

Example Clean_ex1 : filepath.Clean "a/b/../../../c/./d//e/" = "../c/d/e".
Proof. reflexivity. Qed.

Example Clean_ex2 : filepath.Clean "/../a/.." = "/".
Proof. reflexivity. Qed.

Example Clean_ex3 : filepath.Clean "/a/b/c/../../d/.../..x/." = "/a/d/.../..x".
Proof. reflexivity. Qed.

Example Join_ex1 : filepath.Join [""; "x"; ""; "y"] = "x/y".
Proof. reflexivity. Qed.

Example fmt_d_ex : (fmt_d 640, fmt_d (-12), fmt_d 0) = ("640", "-12", "0").
Proof. reflexivity. Qed.

Example under_ex :
  (filepath.under "/tmp" "/tmp/input_7_clip.mp4", filepath.under "/tmp" "/tmp",
   filepath.under "/tmp" "/tmpfile", filepath.under "/tmp" "/etc/passwd")
  = (true, true, false, false).
Proof. reflexivity. Qed.

(** A whole run: the video of chat 7 is downloaded, transcoded and sent,
    and both temp files are gone at the end. *)
Example run_ok :
  Part001.handleVideo envOK ctx0 (videoMsg 7 "clip") emptyWorld
  = {| fs := ∅;
       sent := [(7, txtDownloaded); (7, txtProcessed)];
       notes := [{| vnChatID := 7; vnLength := 640;
                    vnFile := InputFileUpload "clip.mp4" "round video" |}];
       execs := [ffmpegCmd (Some ctx0) "/tmp/input_7_clip.mp4" "/tmp/output_clip.mp4"];
       spawned := [] |}.
Proof. vm_compute. reflexivity. Qed.

(** ** The steps of the pipeline *)

Lemma app_ne_self {A} (l : list A) (x : A) : l ++ [x] <> l.
Proof.
  intros H. apply (f_equal length) in H. rewrite length_app in H.
  cbn in H. lia.
Qed.

Section Steps.

Variable E : Env.

(** What a call of [downloadFile] does, in every variant: it touches the
    destination file only, and it returns [nil] exactly when the GET, the
    creation of the file and the copy all succeed. *)
Lemma downloadFile_inv filePath dest w err w1 :
  MainGo.downloadFile E filePath dest w = (err, w1) ->
  sent w1 = sent w /\ notes w1 = notes w /\ execs w1 = execs w
  /\ spawned w1 = spawned w
  /\ (forall p, p <> dest -> fs w1 !! p = fs w !! p)
  /\ (err = None <-> downloadOK E filePath dest)
  /\ (err = None -> is_Some (fs w1 !! dest)).
Proof.
  unfold MainGo.downloadFile, downloadOK, os_Create, io_Copy, with_fs.
  destruct (env_httpGet E _) as [resp|e] eqn:Hget.
  2:{ intros [= <- <-]. repeat split; try done.
      intros [[resp ?] _]; congruence. }
  destruct (env_Create E dest) as [e|] eqn:Hcreate.
  { intros [= <- <-]. repeat split; try done. intros (_ & ? & _); congruence. }
  destruct (env_Copy E) as [[n e]|] eqn:Hcopy; intros [= <- <-];
    cbn [fs sent notes execs spawned].
  - repeat split; try done.
    + intros p Hp. by rewrite !lookup_insert_ne.
    + intros (_ & _ & ?); congruence.
  - repeat split; try done.
    + intros p Hp. by rewrite !lookup_insert_ne.
    + eauto.
    + intros _. rewrite lookup_insert_eq. eauto.
Qed.

Lemma downloadFileOf_inv v filePath dest w err w1 :
  downloadFileOf v E filePath dest w = (err, w1) ->
  sent w1 = sent w /\ notes w1 = notes w /\ execs w1 = execs w
  /\ spawned w1 = spawned w
  /\ (forall p, p <> dest -> fs w1 !! p = fs w !! p)
  /\ (err = None <-> downloadOK E filePath dest)
  /\ (err = None -> is_Some (fs w1 !! dest)).
Proof. destruct v; exact (downloadFile_inv filePath dest w err w1). Qed.

(** The video filter built with [%d] is the documented one. *)
Lemma scale_filter :
  "crop=min(iw\,ih):min(iw\,ih),scale=" +:+ fmt_d 640 +:+ ":" +:+ fmt_d 640
    +:+ ",format=yuv420p"
  = "crop=min(iw\,ih):min(iw\,ih),scale=640:640,format=yuv420p".
Proof. reflexivity. Qed.

Lemma last_ffmpegArgs i o : last (ffmpegArgs i o) = Some o.
Proof. reflexivity. Qed.

(** What a call of [makeCircularVideo] with a context does: it starts the
    documented command unless the stderr pipe fails, touches the output
    file only, returns [nil] exactly when the pipe, the start and the
    process succeed and the context is not cancelled meanwhile. *)
Lemma makeCircularVideo_inv ctx i o w err w1 :
  Part001.makeCircularVideo E ctx i o w = (err, w1) ->
  sent w1 = sent w /\ notes w1 = notes w /\ spawned w1 = spawned w
  /\ execs w1 = execs w ++ match env_StderrPipe E with
                           | None => [ffmpegCmd (Some ctx) i o]
                           | Some _ => []
                           end
  /\ (forall p, p <> o -> fs w1 !! p = fs w !! p)
  /\ (err = None <-> transcodeOK E ctx)
  /\ (env_done E ctx = true -> err <> None)
  /\ (err = None -> fs w1 !! o = match env_written E with
                                 | Some data => Some data
                                 | None => fs w !! o
                                 end).
Proof.
  unfold Part001.makeCircularVideo, Part001.defaultVideoSize, transcodeOK.
  rewrite scale_filter. fold (ffmpegArgs i o). fold (ffmpegCmd (Some ctx) i o).
  destruct (env_StderrPipe E) as [e|] eqn:Hpipe.
  { intros [= <- <-]. rewrite app_nil_r. repeat split; try done.
    intros (? & _); congruence. }
  unfold cmd_Start. destruct (env_Start E) as [e|] eqn:Hstart.
  { intros [= <- <-]. cbn [fs sent notes execs spawned].
    repeat split; try done. intros (_ & ? & _); congruence. }
  unfold cmd_Wait, leave. cbn [cmdCtx cmdArgs ffmpegCmd execs fs sent notes spawned].
  rewrite last_ffmpegArgs.
  destruct (env_done E ctx) eqn:Hdone.
  - destruct (env_partial E); intros [= <- <-];
      cbn [fs sent notes execs spawned with_fs];
      repeat split; try done;
      try (intros p Hp; by rewrite lookup_insert_ne);
      intros (_ & _ & ? & _); congruence.
  - destruct (env_written E), (env_exit E) as [e|] eqn:Hexit; intros [= <- <-];
      cbn [fs sent notes execs spawned with_fs];
      repeat split; try done;
      try (intros p Hp; by rewrite lookup_insert_ne);
      try (intros (_ & _ & _ & ?); congruence);
      try (intros _; by rewrite lookup_insert_eq).
Qed.

Lemma makeCircularVideoOf_inv v ctx i o w err w1 :
  makeCircularVideoOf v E ctx i o w = (err, w1) ->
  sent w1 = sent w /\ notes w1 = notes w /\ spawned w1 = spawned w
  /\ execs w1 = execs w ++ match env_StderrPipe E with
                           | None => [ffmpegCmd (Some ctx) i o]
                           | Some _ => []
                           end
  /\ (forall p, p <> o -> fs w1 !! p = fs w !! p)
  /\ (err = None <-> transcodeOK E ctx)
  /\ (env_done E ctx = true -> err <> None)
  /\ (err = None -> fs w1 !! o = match env_written E with
                                 | Some data => Some data
                                 | None => fs w !! o
                                 end).
Proof. destruct v; exact (makeCircularVideo_inv ctx i o w err w1). Qed.

(** [fileReader] of the first file of part_000 never fails: it yields the
    empty reader when the file cannot be opened. *)
Lemma fileReader_empty (p : string) (w : World) :
  is_Some (env_Open E p) \/ fs w !! p = None ->
  Part000A.fileReader E p w = "".
Proof.
  unfold Part000A.fileReader, os_Open.
  intros [[e ->]| ->]; [reflexivity|].
  by destruct (env_Open E p).
Qed.

End Steps.

(** ** Walking through a handler *)

(** Split the run of a handler along the answers of the environment; the
    download and transcode steps are replaced by what the lemmas above say
    about them. *)
Ltac walk :=
  repeat match goal with
  | |- context [match Video ?m with _ => _ end] =>
      let fid := fresh "fid" in
      let fname := fresh "fname" in
      destruct (Video m) as [[fid fname]|] eqn:?; cbn [FileID FileName]
  | |- context [match Document ?m with _ => _ end] =>
      let fid := fresh "fid" in
      let fname := fresh "fname" in
      destruct (Document m) as [[fid fname]|] eqn:?; cbn [FileID FileName]
  | |- context [match env_GetFile ?E ?i with _ => _ end] =>
      destruct (env_GetFile E i) as [?|?] eqn:?
  | |- context [Part000A.downloadFile ?E ?f ?d ?w] =>
      let H := fresh "Hdl" in
      destruct (Part000A.downloadFile E f d w) as [[?|] ?] eqn:H;
      apply (downloadFile_inv E f d w) in H;
      destruct H as (? & ? & ? & ? & ? & ? & ?)
  | |- context [Part000B.downloadFile ?E ?f ?d ?w] =>
      let H := fresh "Hdl" in
      destruct (Part000B.downloadFile E f d w) as [[?|] ?] eqn:H;
      apply (downloadFile_inv E f d w) in H;
      destruct H as (? & ? & ? & ? & ? & ? & ?)
  | |- context [Part001.downloadFile ?E ?f ?d ?w] =>
      let H := fresh "Hdl" in
      destruct (Part001.downloadFile E f d w) as [[?|] ?] eqn:H;
      apply (downloadFile_inv E f d w) in H;
      destruct H as (? & ? & ? & ? & ? & ? & ?)
  | |- context [Part000A.makeCircularVideo ?E ?c ?i ?o ?w] =>
      let H := fresh "Hmk" in
      destruct (Part000A.makeCircularVideo E c i o w) as [[?|] ?] eqn:H;
      apply (makeCircularVideo_inv E c i o w) in H;
      destruct H as (? & ? & ? & ? & ? & ? & ? & ?)
  | |- context [Part000B.makeCircularVideo ?E ?c ?i ?o ?w] =>
      let H := fresh "Hmk" in
      destruct (Part000B.makeCircularVideo E c i o w) as [[?|] ?] eqn:H;
      apply (makeCircularVideo_inv E c i o w) in H;
      destruct H as (? & ? & ? & ? & ? & ? & ? & ?)
  | |- context [Part001.makeCircularVideo ?E ?c ?i ?o ?w] =>
      let H := fresh "Hmk" in
      destruct (Part001.makeCircularVideo E c i o w) as [[?|] ?] eqn:H;
      apply (makeCircularVideo_inv E c i o w) in H;
      destruct H as (? & ? & ? & ? & ? & ? & ? & ?)
  | |- context [Part001.fileReader ?E ?p ?w] =>
      destruct (Part001.fileReader E p w) as [?|?] eqn:?
  | |- context [match SendVideoNote ?E ?vn ?w with _ => _ end] =>
      unfold SendVideoNote; destruct (env_SendVideoNote E) as [?|] eqn:?
  | |- context [if bool_decide (?a = ?b) then _ else _] =>
      destruct (bool_decide (a = b)) eqn:?
  end.

Ltac open_handler :=
  unfold handleVideoOf, Part000A.handleVideo, Part000B.handleVideo,
    Part001.handleVideo;
  unfold Part000A.sendErrorMessage, Part000A.sendProgressMessage,
    Part000B.sendErrorMessage, Part000B.sendProgressMessage,
    Part001.sendErrorMessage, Part001.sendProgressMessage;
  cbv zeta.

(** Compute the projections of the final world and rewrite with the frame
    equations collected by [walk]. *)
Ltac frames :=
  repeat first
    [ progress cbn [fs sent notes execs spawned SendMessage os_Remove with_fs
                    return_ fold_left fst snd]
    | match goal with
      | H : ?f ?x = _ |- context [?f ?x] => is_var x; rewrite H
      end ].

Ltac unfold_texts :=
  unfold txtInstruction, txtDownloaded, txtProcessed, txtDownloadFailed,
    txtProcessFailed, txtOpenFailed, txtSendFailed, txtForbidden,
    voiceMsgRestrictionErr, Part000A.voiceMsgRestrictionErr,
    Part001.voiceMsgRestrictionErr in *.

(** Choose the attachment of the message; the hypotheses about it must be
    in the goal. *)
Ltac pick_attachment m :=
  let fid := fresh "fid" in
  let fname := fresh "fname" in
  unfold attachment;
  destruct (Video m) as [[fid fname]|];
    [|destruct (Document m) as [[fid fname]|]];
  cbn [FileID FileName].

(** A message without an attachment gets the validation text. *)
Lemma handler_no_attachment (v : Variant) (E : Env) (ctx : Context) (m : Message)
    (w : World) :
  attachment m = None ->
  handleVideoOf v E ctx m w
  = SendMessage (chatID m) "Please send a valid video file." w.
Proof.
  destruct v; open_handler; pick_attachment m; intros; simplify_eq; reflexivity.
Qed.

(** What a run of a handler for an attachment does to the processes and
    the files: at most one command is started, the documented one on the
    two temp paths of the request, and no other file is touched. *)
Lemma handler_footprint (v : Variant) (E : Env) (ctx : Context) (m : Message)
    (w : World) (att : Attachment) :
  attachment m = Some att ->
  let name := normalizeOf v (FileName att) in
  let w' := handleVideoOf v E ctx m w in
  (execs w' = execs w
   \/ execs w' = execs w ++ [ffmpegCmd (Some ctx) (inputPath E (chatID m) name)
                                       (outputPath E name)])
  /\ spawned w' = spawned w
  /\ (forall p, p <> inputPath E (chatID m) name -> p <> outputPath E name ->
        fs w' !! p = fs w !! p).
Proof.
  intros Hatt name w'. subst name w'. revert Hatt.
  unfold inputPath, outputPath.
  destruct v; open_handler; cbn [normalizeOf]; pick_attachment m;
    intros; simplify_eq; cbn [FileID FileName].
  all: walk; frames.
  all: split; [|split]; try reflexivity.
  all: try (left; reflexivity).
  all: try (destruct (env_StderrPipe E); [left; apply app_nil_r | right; reflexivity]).
  all: intros p Hp1 Hp2; frames; rewrite ?lookup_delete_ne by congruence; auto.
  all: repeat match goal with
       | H : forall p, p <> _ -> fs ?x !! p = _ |- context [fs ?x !! _] =>
           rewrite H by congruence; cbn [fs SendMessage]
       end; auto.
Qed.

(** The adapter starts at most one goroutine, with its own context. *)
Lemma dispatch_spawned (v : Variant) (ctx : Context) (u : Update) (w : World) :
  spawned (dispatchOf v ctx u w) = spawned w
  \/ exists m, spawned (dispatchOf v ctx u w) = spawned w ++ [(ctx, m)].
Proof.
  destruct v; cbn [dispatchOf];
    unfold Part000A.defaultHandler, Part000B.main_update, Part001.defaultHandler;
    (destruct (updMessage u) as [m|]; [|left; reflexivity]);
    (destruct (_ || _); [right; exists m; reflexivity | left; reflexivity]).
Qed.

(** X5: on every exit after a download that succeeded - whatever happens to
    the transcode, the open and the upload - the input temp file is deleted
    when the handler returns. *)
Lemma input_deleted_after_download (v : Variant) (E : Env) (ctx : Context)
    (m : Message) (w : World) (att : Attachment) (file : string) :
  attachment m = Some att ->
  env_GetFile E (FileID att) = Ok file ->
  downloadOK E file (inputPath E (chatID m) (normalizeOf v (FileName att))) ->
  fs (handleVideoOf v E ctx m w)
    !! inputPath E (chatID m) (normalizeOf v (FileName att)) = None.
Proof.
  unfold inputPath. revert file.
  destruct v; open_handler; cbn [normalizeOf]; pick_attachment m;
    intros file Hatt Hget Hok; simplify_eq; cbn [FileID FileName] in *;
    rewrite Hget.
  all: walk; frames.
  all: try match goal with
       | H : Some _ = None <-> _ |- _ => apply H in Hok; discriminate
       end.
  all: apply lookup_delete_eq.
Qed.

(** ** Cleanup of the temp files *)

(** C1: a temp file that was created is not deleted on every exit path.
    The deletions are registered only after the step that creates the file
    has returned without error. When ffmpeg writes part of its output and
    then fails, the handler returns with the output file still in the temp
    directory (the input file is deleted); when the download breaks after
    the destination file was created, the handler returns with the partial
    input file still there. *)
Theorem temp_files_left_behind :
  forall v : Variant,
    (let w := handleVideoOf v envTranscodeFails ctx0 (videoMsg 7 "clip") emptyWorld in
     fs w !! "/tmp/output_clip.mp4" = Some "half a video"
     /\ fs w !! "/tmp/input_7_clip.mp4" = None
     /\ sent w = [(7, txtDownloaded); (7, txtProcessFailed)])
    /\ (let w := handleVideoOf v envCopyBroken ctx0 (videoMsg 7 "clip") emptyWorld in
        fs w !! "/tmp/input_7_clip.mp4" = Some "raw "
        /\ sent w = [(7, txtDownloadFailed)]).
Proof. intros v. destruct v; vm_compute; repeat split; reflexivity. Qed.

(** ** Temp paths of concurrent requests *)

(** C2: two requests from the chats 1 and 2 that carry the same file name
    clip.mp4 get the distinct input paths /tmp/input_1_clip.mp4 and
    /tmp/input_2_clip.mp4 but one and the same output path
    /tmp/output_clip.mp4: both ffmpeg processes write to it and both
    handlers delete it. The output path is not namespaced by the chat. *)
Theorem output_path_shared_between_chats :
  forall v : Variant,
    execs (handleVideoOf v envOK ctx0 (videoMsg 1 "clip.mp4") emptyWorld)
    = [ffmpegCmd (Some ctx0) "/tmp/input_1_clip.mp4" "/tmp/output_clip.mp4"]
    /\ execs (handleVideoOf v envOK ctx0 (videoMsg 2 "clip.mp4") emptyWorld)
       = [ffmpegCmd (Some ctx0) "/tmp/input_2_clip.mp4" "/tmp/output_clip.mp4"]
    /\ outputPath envOK (normalizeOf v "clip.mp4") = "/tmp/output_clip.mp4".
Proof. intros v. destruct v; vm_compute; repeat split; reflexivity. Qed.

(** ** Upload failures *)

(** C3, as the code has it: when the upload step of a request is reached
    and fails with the error string [e], the two variants on
    go-telegram/bot (first file of part_000, part_001) send, after the two
    progress texts, the text about the video-note permission if [e] is
    "Bad Request: VOICE_MESSAGES_FORBIDDEN" and the generic "failed to send"
    text otherwise; the tgbotapi variant of part_000 sends the generic text
    for every upload error. *)
Theorem upload_failure_reply (v : Variant) (E : Env) (ctx : Context)
    (m : Message) (w : World) (e : string) :
  notes (handleVideoOf v E ctx m w) <> notes w ->
  env_SendVideoNote E = Some e ->
  sent (handleVideoOf v E ctx m w)
  = sent w ++ [(chatID m, txtDownloaded); (chatID m, txtProcessed);
               (chatID m, uploadFailureText v e)].
Proof.
  intros Hup He. revert Hup.
  destruct v; open_handler; unfold uploadFailureText; unfold_texts;
    rewrite ?He; walk; frames; simplify_eq.
  all: try congruence.
  all: try (intros Hup; exfalso; apply Hup; reflexivity).
  all: intros _; rewrite <- ?app_assoc; try reflexivity.
Qed.

(** An instance: the chat of the request forbids video notes. *)
Lemma upload_failure_reply_witness :
  notes (handleVideoOf V001 envForbidden ctx0 (videoMsg 7 "clip") emptyWorld)
    <> notes emptyWorld
  /\ env_SendVideoNote envForbidden = Some voiceMsgRestrictionErr
  /\ sent (handleVideoOf V001 envForbidden ctx0 (videoMsg 7 "clip") emptyWorld)
     = [(7, txtDownloaded); (7, txtProcessed); (7, txtForbidden)].
Proof.
  split; [vm_compute; discriminate|]. split; [reflexivity|].
  apply (upload_failure_reply V001 envForbidden ctx0 (videoMsg 7 "clip") emptyWorld
           voiceMsgRestrictionErr).
  - vm_compute; discriminate.
  - reflexivity.
Defined.

(** C3 fails in the tgbotapi variant of part_000 (lines 346-351): an upload
    that fails with "Bad Request: VOICE_MESSAGES_FORBIDDEN" is answered
    with the generic text, and the text about the permission is not sent. *)
Lemma tgbotapi_forbidden_gets_generic_text :
  env_SendVideoNote envForbidden = Some "Bad Request: VOICE_MESSAGES_FORBIDDEN"
  /\ notes (Part000B.handleVideo envForbidden ctx0 (videoMsg 7 "clip") emptyWorld)
     = [{| vnChatID := 7; vnLength := 640;
           vnFile := FilePath "/tmp/output_clip.mp4" |}]
  /\ sent (Part000B.handleVideo envForbidden ctx0 (videoMsg 7 "clip") emptyWorld)
     = [(7, txtDownloaded); (7, txtProcessed); (7, txtSendFailed)]
  /\ (7, txtForbidden)
       ∉ sent (Part000B.handleVideo envForbidden ctx0 (videoMsg 7 "clip") emptyWorld).
Proof.
  vm_compute. repeat split; try reflexivity.
  intros H. repeat (apply elem_of_cons in H as [H|H]; [discriminate H|]).
  by apply elem_of_nil in H.
Qed.

(** ** Messages without an attachment *)

(** C4, as the code has it: for every message that carries neither a video
    nor a document, the adapters of part_000 and part_001 send exactly one
    reply, "Please send a video file to make it circular.", to the chat of
    the message, leave the files alone, start no process and no goroutine;
    the loop of src/main.go does nothing at all for such a message. *)
Theorem no_attachment_reply (v : Variant) (E : Env) (ctx : Context) (m : Message)
    (w : World) :
  Video m = None ->
  Document m = None ->
  sent (dispatchOf v ctx {| updMessage := Some m |} w)
  = sent w ++ [(chatID m, txtInstruction)]
  /\ fs (dispatchOf v ctx {| updMessage := Some m |} w) = fs w
  /\ execs (dispatchOf v ctx {| updMessage := Some m |} w) = execs w
  /\ notes (dispatchOf v ctx {| updMessage := Some m |} w) = notes w
  /\ spawned (dispatchOf v ctx {| updMessage := Some m |} w) = spawned w
  /\ MainGo.main_update E {| updMessage := Some m |} w = Some w.
Proof.
  intros HV HD.
  unfold MainGo.main_update.
  destruct v; cbn [dispatchOf];
    unfold Part000A.defaultHandler, Part000B.main_update, Part001.defaultHandler;
    cbn [updMessage]; rewrite HV, HD; repeat split; reflexivity.
Qed.

(** An instance: a text message from chat 7. *)
Lemma no_attachment_reply_witness :
  sent (dispatchOf V001 ctx0 {| updMessage := Some (textMsg 7) |} emptyWorld)
  = [(7, txtInstruction)]
  /\ execs (dispatchOf V001 ctx0 {| updMessage := Some (textMsg 7) |} emptyWorld) = [].
Proof.
  destruct (no_attachment_reply V001 envOK ctx0 (textMsg 7) emptyWorld eq_refl eq_refl)
    as (Hsent & _ & Hexecs & _).
  split; [exact Hsent | exact Hexecs].
Defined.

(** C4 fails in src/main.go (lines 34-42): a message without video and
    document gets no reply. *)
Lemma main_go_sends_no_instruction :
  option_map sent
    (MainGo.main_update envOK {| updMessage := Some (textMsg 7) |} emptyWorld)
  = Some [].
Proof. reflexivity. Qed.

(** ** Download failures *)

(** C5, as the code has it: for every request whose call of [downloadFile]
    returns an error (the GET fails in the transport, the destination
    cannot be created, or the copy breaks), the pipeline sends exactly the
    "failed to download" text, starts no transcoder, and changes no file
    other than the input temp file, so no output temp file is left. The
    status code of the HTTP response is not among the causes. *)
Theorem download_failure_reply (v : Variant) (E : Env) (ctx : Context)
    (m : Message) (w : World) (att : Attachment) (file : string) :
  attachment m = Some att ->
  env_GetFile E (FileID att) = Ok file ->
  (downloadFileOf v E file
     (inputPath E (chatID m) (normalizeOf v (FileName att))) w).1 <> None ->
  sent (handleVideoOf v E ctx m w) = sent w ++ [(chatID m, txtDownloadFailed)]
  /\ execs (handleVideoOf v E ctx m w) = execs w
  /\ notes (handleVideoOf v E ctx m w) = notes w
  /\ (forall p, p <> inputPath E (chatID m) (normalizeOf v (FileName att)) ->
        fs (handleVideoOf v E ctx m w) !! p = fs w !! p).
Proof.
  unfold inputPath. revert file.
  destruct v; open_handler; cbn [normalizeOf downloadFileOf]; pick_attachment m;
    intros file Hatt Hget; simplify_eq; cbn [FileID FileName] in *;
    rewrite Hget.
  all: match goal with
       | |- context [Part000A.downloadFile ?E ?f ?d ?w] =>
           destruct (Part000A.downloadFile E f d w) as [[e|] w1] eqn:Hdl;
           apply (downloadFile_inv E f d w) in Hdl
       | |- context [Part000B.downloadFile ?E ?f ?d ?w] =>
           destruct (Part000B.downloadFile E f d w) as [[e|] w1] eqn:Hdl;
           apply (downloadFile_inv E f d w) in Hdl
       | |- context [Part001.downloadFile ?E ?f ?d ?w] =>
           destruct (Part001.downloadFile E f d w) as [[e|] w1] eqn:Hdl;
           apply (downloadFile_inv E f d w) in Hdl
       end.
  all: intros Hfail; try (exfalso; apply Hfail; reflexivity).
  all: destruct Hdl as (Hsent & Hnotes & Hexecs & _ & Hfs & _).
  all: cbn [sent notes execs fs SendMessage].
  all: rewrite Hsent, Hnotes, Hexecs; repeat split; try reflexivity; exact Hfs.
Qed.

(** An instance: the connection breaks during the copy. *)
Lemma download_failure_reply_witness :
  sent (handleVideoOf V001 envCopyBroken ctx0 (videoMsg 7 "clip") emptyWorld)
  = [(7, txtDownloadFailed)]
  /\ execs (handleVideoOf V001 envCopyBroken ctx0 (videoMsg 7 "clip") emptyWorld) = []
  /\ fs (handleVideoOf V001 envCopyBroken ctx0 (videoMsg 7 "clip") emptyWorld)
       !! "/tmp/output_clip.mp4" = None.
Proof.
  destruct (download_failure_reply V001 envCopyBroken ctx0 (videoMsg 7 "clip")
              emptyWorld {| FileID := "file-id"; FileName := "clip" |}
              "videos/file_1.mp4" eq_refl eq_refl)
    as (Hsent & Hexecs & _ & Hfs).
  - vm_compute; discriminate.
  - split; [exact Hsent|]. split; [exact Hexecs|].
    rewrite Hfs; [reflexivity | vm_compute; discriminate].
Defined.

(** C5 fails for a non-success HTTP status: the file server answers 404,
    [downloadFile] stores the error page as the input file and returns
    [nil]; the pipeline reports the download as done, starts ffmpeg once
    and ends with the "failed to process" text. *)
Lemma http_error_status_is_transcoded :
  env_httpGet env404 "https://api.telegram.org/file/botTOKEN/videos/file_1.mp4"
  = Ok {| StatusCode := 404; Body := "Not Found" |}
  /\ sent (Part001.handleVideo env404 ctx0 (videoMsg 7 "clip") emptyWorld)
     = [(7, txtDownloaded); (7, txtProcessFailed)]
  /\ execs (Part001.handleVideo env404 ctx0 (videoMsg 7 "clip") emptyWorld)
     = [ffmpegCmd (Some ctx0) "/tmp/input_7_clip.mp4" "/tmp/output_clip.mp4"]
  /\ sent (Part000A.handleVideo env404 ctx0 (videoMsg 7 "clip") emptyWorld)
     = [(7, txtDownloaded); (7, txtProcessFailed)]
  /\ execs (Part000A.handleVideo env404 ctx0 (videoMsg 7 "clip") emptyWorld)
     = [ffmpegCmd (Some ctx0) "/tmp/input_7_clip.mp4" "/tmp/output_clip.mp4"].
Proof. vm_compute. repeat split; reflexivity. Qed.

(** ** The transcoder command line *)

(** C6: for every input path and output path, the transcoder invoker of
    every variant builds exactly one command line: the executable "ffmpeg"
    with the arguments -i <input>, -vf
    "crop=min(iw\,ih):min(iw\,ih),scale=640:640,format=yuv420p", -c:a copy,
    -y, <output>. It is the only command it starts (the variants that open
    a stderr pipe first start nothing when the pipe cannot be opened). *)
Theorem transcoder_command_line (E : Env) (ctx : Context) (input output : string)
    (w : World) :
  execs (MainGo.makeCircularVideo E input output w).2
  = execs w ++ [{| cmdCtx := None; cmdName := "ffmpeg";
                   cmdArgs := ffmpegArgs input output |}]
  /\ forall v : Variant,
       execs (makeCircularVideoOf v E ctx input output w).2
       = execs w ++ match env_StderrPipe E with
                    | None => [{| cmdCtx := Some ctx; cmdName := "ffmpeg";
                                  cmdArgs := ffmpegArgs input output |}]
                    | Some _ => []
                    end.
Proof.
  split.
  - unfold MainGo.makeCircularVideo, cmd_Run, cmd_Start, cmd_Wait, leave.
    fold (ffmpegArgs input output).
    destruct (env_Start E); [reflexivity|].
    cbn [cmdCtx cmdArgs]. rewrite last_ffmpegArgs.
    destruct (env_written E); reflexivity.
  - intros v.
    destruct (makeCircularVideoOf v E ctx input output w) as [err w1] eqn:Hrun.
    apply makeCircularVideoOf_inv in Hrun as (_ & _ & _ & Hexecs & _).
    exact Hexecs.
Qed.

(** ** File names and temp paths *)

(** A request whose download succeeds and whose stderr pipe opens starts
    the documented command on its two temp paths, with the context of the
    handler. *)
Lemma handler_starts_command (v : Variant) (E : Env) (ctx : Context) (m : Message)
    (w : World) (att : Attachment) (file : string) :
  let name := normalizeOf v (FileName att) in
  attachment m = Some att ->
  env_GetFile E (FileID att) = Ok file ->
  downloadOK E file (inputPath E (chatID m) name) ->
  env_StderrPipe E = None ->
  execs (handleVideoOf v E ctx m w)
  = execs w ++ [ffmpegCmd (Some ctx) (inputPath E (chatID m) name) (outputPath E name)].
Proof.
  intros name. subst name. unfold inputPath, outputPath.
  revert file.
  destruct v; open_handler; cbn [normalizeOf]; pick_attachment m;
    intros file Hatt Hget Hdown Hpipe; simplify_eq;
    cbn [FileID FileName] in *; rewrite Hget.
  all: walk.
  all: try match goal with
       | H : Some _ = None <-> downloadOK _ _ _ |- _ => apply H in Hdown; discriminate
       end.
  all: frames.
  all: rewrite ?Hpipe; reflexivity.
Qed.

(** A download that breaks during the copy leaves what was copied at the
    input path of the request. *)
Lemma handler_download_destination (v : Variant) (E : Env) (ctx : Context)
    (m : Message) (w : World) (att : Attachment) (file : string)
    (resp : Response) (n : nat) (e : string) :
  let name := normalizeOf v (FileName att) in
  attachment m = Some att ->
  env_GetFile E (FileID att) = Ok file ->
  env_httpGet E ("https://api.telegram.org/file/bot" +:+ env_Token E +:+ "/" +:+ file)
  = Ok resp ->
  env_Create E (inputPath E (chatID m) name) = None ->
  env_Copy E = Some (n, e) ->
  fs (handleVideoOf v E ctx m w) !! inputPath E (chatID m) name
  = Some (String.substring 0 n (Body resp)).
Proof.
  intros name. subst name. unfold inputPath.
  revert file.
  destruct v; open_handler; cbn [normalizeOf]; pick_attachment m;
    intros file Hatt Hget Hhttp Hcreate Hcopy; simplify_eq;
    cbn [FileID FileName] in *; rewrite Hget.
  all: unfold Part000A.downloadFile, Part000B.downloadFile, Part001.downloadFile,
         os_Create, io_Copy.
  all: rewrite Hhttp, Hcreate, Hcopy.
  all: cbn [fs SendMessage with_fs].
  all: apply lookup_insert_eq.
Qed.

(** C7: in the variants that name their temp files after the attachment,
    the normalized file name is "video.mp4" when the given display name is
    empty, the given name with ".mp4" appended when it has no extension,
    and the given name unchanged otherwise; this one normalized name is
    used in both temp paths of the request. The download writes to
    [input_<chatID>_<name>] in the temp directory (what a broken copy
    leaves is found there); once the download has succeeded and the stderr
    pipe is open, the handler starts ffmpeg reading that path and writing
    [output_<name>] in the temp directory; it starts no other command and
    touches no other file. *)
Theorem normalized_name_in_paths (v : Variant) :
  normalizeOf v "" = "video.mp4"
  /\ (forall name, name <> "" -> filepath.Ext name = "" ->
        normalizeOf v name = name +:+ ".mp4")
  /\ (forall name, name <> "" -> filepath.Ext name <> "" ->
        normalizeOf v name = name)
  /\ (forall E ctx m w att cmd,
        attachment m = Some att ->
        execs (handleVideoOf v E ctx m w) = execs w ++ [cmd] ->
        cmdName cmd = "ffmpeg"
        /\ cmdArgs cmd
           = ffmpegArgs (inputPath E (chatID m) (normalizeOf v (FileName att)))
                        (outputPath E (normalizeOf v (FileName att))))
  /\ (forall E ctx m w att p,
        attachment m = Some att ->
        p <> inputPath E (chatID m) (normalizeOf v (FileName att)) ->
        p <> outputPath E (normalizeOf v (FileName att)) ->
        fs (handleVideoOf v E ctx m w) !! p = fs w !! p)
  /\ (forall E ctx m w att file,
        attachment m = Some att ->
        env_GetFile E (FileID att) = Ok file ->
        downloadOK E file (inputPath E (chatID m) (normalizeOf v (FileName att))) ->
        env_StderrPipe E = None ->
        execs (handleVideoOf v E ctx m w)
        = execs w ++ [{| cmdCtx := Some ctx; cmdName := "ffmpeg";
                         cmdArgs :=
                           ffmpegArgs
                             (inputPath E (chatID m) (normalizeOf v (FileName att)))
                             (outputPath E (normalizeOf v (FileName att))) |}])
  /\ (forall E ctx m w att file resp n e,
        attachment m = Some att ->
        env_GetFile E (FileID att) = Ok file ->
        env_httpGet E
          ("https://api.telegram.org/file/bot" +:+ env_Token E +:+ "/" +:+ file)
        = Ok resp ->
        env_Create E (inputPath E (chatID m) (normalizeOf v (FileName att))) = None ->
        env_Copy E = Some (n, e) ->
        fs (handleVideoOf v E ctx m w)
          !! inputPath E (chatID m) (normalizeOf v (FileName att))
        = Some (String.substring 0 n (Body resp))).
Proof.
  split; [|split; [|split; [|split; [|split; [|split]]]]].
  - by destruct v.
  - intros name Hne Hext.
    destruct v; cbn [normalizeOf];
      unfold Part000A.normalize, Part000B.normalize, Part001.normalize;
      rewrite bool_decide_eq_false_2, bool_decide_eq_true_2; done.
  - intros name Hne Hext.
    destruct v; cbn [normalizeOf];
      unfold Part000A.normalize, Part000B.normalize, Part001.normalize;
      rewrite !bool_decide_eq_false_2; done.
  - intros E ctx m w att cmd Hatt Hexecs.
    destruct (handler_footprint v E ctx m w att Hatt) as ([Hex|Hex] & _);
      rewrite Hex in Hexecs.
    + symmetry in Hexecs. by apply app_ne_self in Hexecs.
    + apply app_inv_head in Hexecs. injection Hexecs as <-. by split.
  - intros E ctx m w att p Hatt Hp1 Hp2.
    by apply (handler_footprint v E ctx m w att Hatt).
  - intros E ctx m w att file Hatt Hget Hdown Hpipe.
    exact (handler_starts_command v E ctx m w att file Hatt Hget Hdown Hpipe).
  - intros E ctx m w att file resp n e Hatt Hget Hhttp Hcreate Hcopy.
    exact (handler_download_destination v E ctx m w att file resp n e
             Hatt Hget Hhttp Hcreate Hcopy).
Qed.

(** An instance: the names clip and clip.mov from chat 7; the command
    started for clip, and the partial download of clip. *)
Lemma normalized_name_in_paths_witness :
  normalizeOf V001 "clip" = "clip.mp4"
  /\ normalizeOf V001 "clip.mov" = "clip.mov"
  /\ execs (handleVideoOf V001 envOK ctx0 (videoMsg 7 "clip") emptyWorld)
     = [ffmpegCmd (Some ctx0) "/tmp/input_7_clip.mp4" "/tmp/output_clip.mp4"]
  /\ fs (handleVideoOf V001 envCopyBroken ctx0 (videoMsg 7 "clip") emptyWorld)
       !! "/tmp/input_7_clip.mp4" = Some "raw "
  /\ fs (handleVideoOf V001 envTranscodeFails ctx0 (videoMsg 7 "clip") emptyWorld)
       !! "/tmp/other" = fs emptyWorld !! "/tmp/other".
Proof.
  destruct (normalized_name_in_paths V001)
    as (_ & Happend & Hkeep & _ & Hfs & Hcmd & Hdest).
  split; [|split; [|split; [|split]]].
  - apply (Happend "clip"); [discriminate | reflexivity].
  - apply (Hkeep "clip.mov"); [discriminate | vm_compute; discriminate].
  - etrans.
    + apply (Hcmd envOK ctx0 (videoMsg 7 "clip") emptyWorld
               {| FileID := "file-id"; FileName := "clip" |} "videos/file_1.mp4").
      * reflexivity.
      * reflexivity.
      * split; [eexists; reflexivity | split; reflexivity].
      * reflexivity.
    + reflexivity.
  - etrans.
    + apply (Hdest envCopyBroken ctx0 (videoMsg 7 "clip") emptyWorld
               {| FileID := "file-id"; FileName := "clip" |} "videos/file_1.mp4"
               {| StatusCode := 200; Body := "raw video" |} 4%nat "unexpected EOF").
      * reflexivity.
      * reflexivity.
      * reflexivity.
      * reflexivity.
      * reflexivity.
    + reflexivity.
  - apply (Hfs envTranscodeFails ctx0 (videoMsg 7 "clip") emptyWorld
             {| FileID := "file-id"; FileName := "clip" |});
      [reflexivity | vm_compute; discriminate | vm_compute; discriminate].
Defined.

(** ** Cancellation *)

(** The loop of [main] in the second file of part_000 returns when the
    [select] takes [ctx.Done()], whatever is still to come. *)
Lemma main_loop_returns_on_done (ctx : Context) (updates : list Update)
    (rest : list SelectCase) (w : World) :
  Part000B.main_loop ctx (map RecvUpdate updates ++ CtxDone :: rest) w
  = (fold_left (fun w u => Part000B.main_update ctx u w) updates w, true).
Proof.
  revert w. induction updates as [|u us IH]; intros w; [reflexivity|].
  cbn [map app Part000B.main_loop fold_left]. apply IH.
Qed.

(** C8, as the code has it: in the three variants that make a cancellation
    context (both files of part_000, part_001) the context of the adapter
    is the one given to the goroutine it starts for a message with an
    attachment, and the context of the handler is the one of the command
    the handler and its transcoder invoker start (they start it once the
    download has succeeded and the stderr pipe is open, and start no other
    command). In part_001, where the program keeps running after the
    signal, a context cancelled while ffmpeg runs makes the invocation
    return an error, and no video note is handed over. In the second file
    of part_000 the loop of [main] returns as soon as its [select] takes
    [ctx.Done()], without waiting for the goroutines it has started: there
    the program can end with a transcode still in flight. src/main.go has
    no context. *)
Theorem cancellation_threaded (v : Variant) (E : Env) (ctx : Context) :
  (forall u w t, t ∈ spawned (dispatchOf v ctx u w) -> t ∈ spawned w \/ t.1 = ctx)
  /\ (forall m w,
        attachment m <> None ->
        spawned (dispatchOf v ctx {| updMessage := Some m |} w)
        = spawned w ++ [(ctx, m)])
  /\ (forall m w cmd,
        cmd ∈ execs (handleVideoOf v E ctx m w) ->
        cmd ∈ execs w \/ cmdCtx cmd = Some ctx)
  /\ (forall m w att file,
        attachment m = Some att ->
        env_GetFile E (FileID att) = Ok file ->
        downloadOK E file (inputPath E (chatID m) (normalizeOf v (FileName att))) ->
        env_StderrPipe E = None ->
        execs (handleVideoOf v E ctx m w)
        = execs w ++ [{| cmdCtx := Some ctx; cmdName := "ffmpeg";
                         cmdArgs :=
                           ffmpegArgs
                             (inputPath E (chatID m) (normalizeOf v (FileName att)))
                             (outputPath E (normalizeOf v (FileName att))) |}])
  /\ (forall i o w cmd,
        cmd ∈ execs (makeCircularVideoOf v E ctx i o w).2 ->
        cmd ∈ execs w \/ cmdCtx cmd = Some ctx)
  /\ (env_done E ctx = true ->
      forall i o w, (Part001.makeCircularVideo E ctx i o w).1 <> None)
  /\ (env_done E ctx = true ->
      forall m w, notes (Part001.handleVideo E ctx m w) = notes w)
  /\ (forall updates rest w,
        Part000B.main_loop ctx (map RecvUpdate updates ++ CtxDone :: rest) w
        = (fold_left (fun w u => Part000B.main_update ctx u w) updates w, true)).
Proof.
  split; [|split; [|split; [|split; [|split; [|split; [|split]]]]]].
  - intros u w t Ht.
    destruct (dispatch_spawned v ctx u w) as [Heq|[m Heq]]; rewrite Heq in Ht.
    + by left.
    + apply elem_of_app in Ht as [Ht|Ht]; [by left|].
      apply list_elem_of_singleton in Ht as ->. by right.
  - intros m w Hatt.
    destruct v; cbn [dispatchOf];
      unfold Part000A.defaultHandler, Part000B.main_update, Part001.defaultHandler;
      cbn [updMessage]; unfold attachment in Hatt;
      destruct (Video m), (Document m); done.
  - intros m w cmd Hcmd.
    destruct (attachment m) as [att|] eqn:Hatt.
    + destruct (handler_footprint v E ctx m w att Hatt) as ([Heq|Heq] & _);
        rewrite Heq in Hcmd.
      * by left.
      * apply elem_of_app in Hcmd as [Hcmd|Hcmd]; [by left|].
        apply list_elem_of_singleton in Hcmd as ->. by right.
    + rewrite (handler_no_attachment v E ctx m w Hatt) in Hcmd. by left.
  - intros m w att file Hatt Hget Hdown Hpipe.
    exact (handler_starts_command v E ctx m w att file Hatt Hget Hdown Hpipe).
  - intros i o w cmd Hcmd.
    destruct (makeCircularVideoOf v E ctx i o w) as [err w1] eqn:Hrun.
    apply makeCircularVideoOf_inv in Hrun as (_ & _ & _ & Heq & _).
    cbn [snd] in Hcmd. rewrite Heq in Hcmd.
    apply elem_of_app in Hcmd as [Hcmd|Hcmd]; [by left|].
    destruct (env_StderrPipe E).
    + by apply elem_of_nil in Hcmd.
    + apply list_elem_of_singleton in Hcmd as ->. by right.
  - intros Hdone i o w.
    destruct (Part001.makeCircularVideo E ctx i o w) as [err w1] eqn:Hrun.
    apply makeCircularVideo_inv in Hrun as (_ & _ & _ & _ & _ & _ & Hkill & _).
    by apply Hkill.
  - intros Hdone m w.
    open_handler; walk; frames; try reflexivity.
    all: exfalso; match goal with
         | H : env_done _ _ = true -> None <> None |- _ => by apply H
         end.
  - intros updates rest w. apply main_loop_returns_on_done.
Qed.

(** An instance: the shutdown signal fires while ffmpeg runs for the video
    of chat 7. In part_001 the command carries the context, its invocation
    fails and no note is handed over; the loop of the second file of
    part_000 returns with the goroutine it started not waited for. *)
Lemma cancellation_threaded_witness :
  env_done envShutdown ctx0 = true
  /\ execs (handleVideoOf V001 envShutdown ctx0 (videoMsg 7 "clip") emptyWorld)
     = [ffmpegCmd (Some ctx0) "/tmp/input_7_clip.mp4" "/tmp/output_clip.mp4"]
  /\ (Part001.makeCircularVideo envShutdown ctx0 "/tmp/in.mp4" "/tmp/out.mp4"
        emptyWorld).1 <> None
  /\ notes (Part001.handleVideo envShutdown ctx0 (videoMsg 7 "clip") emptyWorld) = []
  /\ Part000B.main_loop ctx0
       [RecvUpdate {| updMessage := Some (videoMsg 7 "clip") |}; CtxDone;
        RecvUpdate {| updMessage := Some (videoMsg 8 "late") |}] emptyWorld
     = (go_handleVideo ctx0 (videoMsg 7 "clip") emptyWorld, true).
Proof.
  destruct (cancellation_threaded V001 envShutdown ctx0)
    as (_ & _ & _ & Hcmd & _ & Hkill & Hnotes & Hloop).
  split; [reflexivity|]. split; [|split; [|split]].
  - etrans.
    + apply (Hcmd (videoMsg 7 "clip") emptyWorld
               {| FileID := "file-id"; FileName := "clip" |} "videos/file_1.mp4").
      * reflexivity.
      * reflexivity.
      * split; [eexists; reflexivity | split; reflexivity].
      * reflexivity.
    + reflexivity.
  - apply Hkill. reflexivity.
  - apply (Hnotes eq_refl (videoMsg 7 "clip") emptyWorld).
  - etrans.
    + apply (Hloop [{| updMessage := Some (videoMsg 7 "clip") |}]
               [RecvUpdate {| updMessage := Some (videoMsg 8 "late") |}] emptyWorld).
    + reflexivity.
Defined.

(** C8 fails in src/main.go (lines 98-108): the command is made by
    [exec.Command], without a context; a cancelled context has no hold on
    it, and the invocation ends as ffmpeg ends. *)
Lemma main_go_ignores_cancellation :
  env_done envShutdown ctx0 = true
  /\ MainGo.makeCircularVideo envShutdown "/tmp/input.mp4" "/tmp/output.mp4" emptyWorld
     = (None,
        {| fs := {["/tmp/output.mp4" := "round video"]}; sent := []; notes := [];
           execs := [{| cmdCtx := None; cmdName := "ffmpeg";
                        cmdArgs := ffmpegArgs "/tmp/input.mp4" "/tmp/output.mp4" |}];
           spawned := [] |}).
Proof. split; reflexivity. Qed.

(** ** Opening the transcoded file *)

(** C9: in the first file of part_000, for every request whose download
    and transcode steps succeed and whose output file cannot be opened
    (the open fails, or ffmpeg left no file), the pipeline goes on: the
    video note is handed over with the normalized name and empty data, and
    the only texts sent are the two progress texts and, when the upload
    fails, the text for the upload failure. [fileReader] returns the empty
    reader whenever the open fails. *)
Theorem fileReader_failure_uploads_empty (E : Env) (ctx : Context) (m : Message)
    (w : World) (att : Attachment) (file : string) :
  let name := Part000A.normalize (FileName att) in
  let inp := inputPath E (chatID m) name in
  let out := outputPath E name in
  attachment m = Some att ->
  env_GetFile E (FileID att) = Ok file ->
  downloadOK E file inp ->
  transcodeOK E ctx ->
  is_Some (env_Open E out)
  \/ (env_written E = None /\ out <> inp /\ fs w !! out = None) ->
  notes (Part000A.handleVideo E ctx m w)
  = notes w ++ [{| vnChatID := chatID m; vnLength := 640;
                   vnFile := InputFileUpload name "" |}]
  /\ sent (Part000A.handleVideo E ctx m w)
     = sent w ++ [(chatID m, txtDownloaded); (chatID m, txtProcessed)]
         ++ match env_SendVideoNote E with
            | Some e => [(chatID m, uploadFailureText V000A e)]
            | None => []
            end
  /\ (forall p w0 e, os_Open E p w0 = Err e -> Part000A.fileReader E p w0 = "").
Proof.
  intros name inp out. subst name inp out. unfold inputPath, outputPath.
  revert file.
  open_handler; pick_attachment m;
    intros file Hatt Hget Hdown Htrans Hopen; simplify_eq;
    cbn [FileID FileName] in *; rewrite Hget.
  all: unfold uploadFailureText; unfold_texts.
  all: walk.
  all: try match goal with
       | H : Some _ = None <-> downloadOK _ _ _ |- _ => apply H in Hdown; discriminate
       | H : Some _ = None <-> transcodeOK _ _ |- _ => apply H in Htrans; discriminate
       end.
  all: rewrite fileReader_empty.
  all: try (frames; rewrite <- ?app_assoc; split; [reflexivity|split; [reflexivity|]];
            intros p' w' e' Hop; unfold Part000A.fileReader; by rewrite Hop).
  all: destruct Hopen as [Hopen|(Hwr & Hne & Hnone)]; [by left|right].
  all: cbn [fs SendMessage].
  all: match goal with
       | H : None = None -> fs ?w1 !! _ = _ |- fs ?w1 !! _ = None =>
           rewrite (H eq_refl), Hwr; cbn [fs SendMessage]
       end.
  all: match goal with
       | H : forall p, p <> _ -> fs ?w0 !! p = _ |- fs ?w0 !! _ = None =>
           rewrite (H _ Hne); exact Hnone
       end.
Qed.

(** An instance: the open of the output file is refused. *)
Lemma fileReader_failure_uploads_empty_witness :
  notes (Part000A.handleVideo envOpenFails ctx0 (videoMsg 7 "clip") emptyWorld)
  = [{| vnChatID := 7; vnLength := 640; vnFile := InputFileUpload "clip.mp4" "" |}]
  /\ sent (Part000A.handleVideo envOpenFails ctx0 (videoMsg 7 "clip") emptyWorld)
     = [(7, txtDownloaded); (7, txtProcessed)].
Proof.
  destruct (fileReader_failure_uploads_empty envOpenFails ctx0 (videoMsg 7 "clip")
              emptyWorld {| FileID := "file-id"; FileName := "clip" |}
              "videos/file_1.mp4") as (Hnotes & Hsent & _).
  - reflexivity.
  - reflexivity.
  - split; [eexists; reflexivity | split; reflexivity].
  - repeat split; reflexivity.
  - left. eexists; reflexivity.
  - split; [exact Hnotes | exact Hsent].
Defined.

(** ** Unsanitized file names *)

(** C10: the display name goes into the temp paths as it is: for the file
    name "/../../etc/x.mp4" (left unchanged by the normalization) the input
    path and the output path computed by every variant, joined with the
    temp directory /tmp, are both /etc/x.mp4, outside the temp directory,
    and this is the path handed to ffmpeg. *)
Theorem temp_path_escapes :
  exists fileName : string, forall v : Variant,
    normalizeOf v fileName = fileName
    /\ os_TempDir envOK = "/tmp"
    /\ filepath.under (os_TempDir envOK)
         (inputPath envOK 7 (normalizeOf v fileName)) = false
    /\ filepath.under (os_TempDir envOK)
         (outputPath envOK (normalizeOf v fileName)) = false
    /\ execs (handleVideoOf v envOK ctx0 (videoMsg 7 fileName) emptyWorld)
       = [ffmpegCmd (Some ctx0) "/etc/x.mp4" "/etc/x.mp4"].
Proof.
  exists "/../../etc/x.mp4". intros v.
  destruct v; vm_compute; repeat split; reflexivity.
Qed.

(** * Further properties of the pipeline *)

Lemma lookup_delete_inner (a b : string) (f : gmap string string) :
  delete a (delete b f) !! b = None.
Proof.
  destruct (decide (a = b)) as [->|Hne].
  - apply lookup_delete_eq.
  - rewrite lookup_delete_ne by done. apply lookup_delete_eq.
Qed.

(** Close the branches in which a step that is assumed to succeed failed. *)
Ltac contradict_steps Hdown Htrans :=
  try match goal with
      | H : Some _ = None <-> downloadOK _ _ _ |- _ => apply H in Hdown; discriminate
      | H : Some _ = None <-> transcodeOK _ _ |- _ => apply H in Htrans; discriminate
      end.

(** ** The outcomes of a request *)

(** X1: a request of which every step succeeds sends the two progress texts
    and no other text, starts the one ffmpeg command on its two temp paths,
    hands over one video note of length 640 for the chat of the message
    (the bytes ffmpeg wrote under the normalized name, or the output path
    in the tgbotapi variant), and has deleted both temp files when it
    returns. *)
Theorem successful_request (v : Variant) (E : Env) (ctx : Context) (m : Message)
    (w : World) (att : Attachment) (file data : string) :
  let name := normalizeOf v (FileName att) in
  let inp := inputPath E (chatID m) name in
  let out := outputPath E name in
  attachment m = Some att ->
  env_GetFile E (FileID att) = Ok file ->
  downloadOK E file inp ->
  transcodeOK E ctx ->
  env_written E = Some data ->
  env_Open E out = None ->
  env_SendVideoNote E = None ->
  sent (handleVideoOf v E ctx m w)
  = sent w ++ [(chatID m, txtDownloaded); (chatID m, txtProcessed)]
  /\ notes (handleVideoOf v E ctx m w)
     = notes w ++ [{| vnChatID := chatID m; vnLength := 640;
                      vnFile := noteFile v name data out |}]
  /\ execs (handleVideoOf v E ctx m w)
     = execs w ++ [ffmpegCmd (Some ctx) inp out]
  /\ fs (handleVideoOf v E ctx m w) !! inp = None
  /\ fs (handleVideoOf v E ctx m w) !! out = None.
Proof.
  intros name inp out. subst name inp out. unfold inputPath, outputPath.
  revert file.
  destruct v; open_handler; cbn [normalizeOf noteFile]; pick_attachment m;
    intros file Hatt Hget Hdown Htrans Hwr Hopen Hup; simplify_eq;
    cbn [FileID FileName] in *; rewrite Hget.
  all: unfold_texts; unfold Part000A.fileReader.
  all: walk.
  all: contradict_steps Hdown Htrans.
  all: try congruence.
  all: destruct Htrans as (Hpipe & _).
  all: repeat match goal with
       | H : None = None -> fs ?w1 !! _ = _ |- _ =>
           specialize (H eq_refl); rewrite Hwr in H
       | H : Part001.fileReader _ _ _ = _ |- _ =>
           unfold Part001.fileReader, os_Open in H; rewrite Hopen in H;
           cbn [fs SendMessage] in H
       | H : context [match fs ?w1 !! ?p with _ => _ end], H' : fs ?w1 !! ?p = _ |- _ =>
           rewrite H' in H
       end; simplify_eq.
  all: frames.
  all: split; [by rewrite <- app_assoc|].
  all: split;
    [try (unfold os_Open; rewrite Hopen; cbn [fs SendMessage];
          match goal with H : fs _ !! _ = Some _ |- _ => rewrite H end);
     reflexivity|].
  all: split; [reflexivity|].
  all: split; [apply lookup_delete_eq | apply lookup_delete_inner].
Qed.

(** An instance: the video clip of chat 7 with everything working. *)
Lemma successful_request_witness :
  sent (handleVideoOf V001 envOK ctx0 (videoMsg 7 "clip") emptyWorld)
  = [(7, txtDownloaded); (7, txtProcessed)]
  /\ notes (handleVideoOf V001 envOK ctx0 (videoMsg 7 "clip") emptyWorld)
     = [{| vnChatID := 7; vnLength := 640;
           vnFile := InputFileUpload "clip.mp4" "round video" |}]
  /\ fs (handleVideoOf V001 envOK ctx0 (videoMsg 7 "clip") emptyWorld)
       !! "/tmp/output_clip.mp4" = None.
Proof.
  destruct (successful_request V001 envOK ctx0 (videoMsg 7 "clip") emptyWorld
              {| FileID := "file-id"; FileName := "clip" |}
              "videos/file_1.mp4" "round video")
    as (Hsent & Hnotes & _ & _ & Hout).
  - reflexivity.
  - reflexivity.
  - split; [eexists; reflexivity | split; reflexivity].
  - repeat split; reflexivity.
  - reflexivity.
  - reflexivity.
  - reflexivity.
  - split; [exact Hsent|]. split; [exact Hnotes | exact Hout].
Defined.

(** X2: when the download of a request succeeds and the transcode step
    fails (the pipe or the start fails, ffmpeg exits with an error, or the
    context is cancelled meanwhile), the pipeline sends the "downloaded"
    text and then exactly the "failed to process" text, never attempts the
    upload, and has deleted the input temp file when it returns. *)
Theorem transcode_failure_reply (v : Variant) (E : Env) (ctx : Context)
    (m : Message) (w : World) (att : Attachment) (file : string) :
  let name := normalizeOf v (FileName att) in
  let inp := inputPath E (chatID m) name in
  attachment m = Some att ->
  env_GetFile E (FileID att) = Ok file ->
  downloadOK E file inp ->
  ~ transcodeOK E ctx ->
  sent (handleVideoOf v E ctx m w)
  = sent w ++ [(chatID m, txtDownloaded); (chatID m, txtProcessFailed)]
  /\ notes (handleVideoOf v E ctx m w) = notes w
  /\ fs (handleVideoOf v E ctx m w) !! inp = None.
Proof.
  intros name inp. subst name inp. unfold inputPath.
  revert file.
  destruct v; open_handler; cbn [normalizeOf]; pick_attachment m;
    intros file Hatt Hget Hdown Htrans; simplify_eq;
    cbn [FileID FileName] in *; rewrite Hget.
  all: unfold_texts.
  all: walk.
  all: try match goal with
       | H : Some _ = None <-> downloadOK _ _ _ |- _ => apply H in Hdown; discriminate
       | H : None = None <-> transcodeOK _ _ |- _ =>
           exfalso; apply Htrans; by apply H
       end.
  all: frames.
  all: split; [by rewrite <- app_assoc|].
  all: split; [reflexivity | apply lookup_delete_eq].
Qed.

(** An instance: ffmpeg exits with status 1. *)
Lemma transcode_failure_reply_witness :
  sent (handleVideoOf V000B envTranscodeFails ctx0 (videoMsg 7 "clip") emptyWorld)
  = [(7, txtDownloaded); (7, txtProcessFailed)]
  /\ notes (handleVideoOf V000B envTranscodeFails ctx0 (videoMsg 7 "clip") emptyWorld)
     = []
  /\ fs (handleVideoOf V000B envTranscodeFails ctx0 (videoMsg 7 "clip") emptyWorld)
       !! "/tmp/input_7_clip.mp4" = None.
Proof.
  apply (transcode_failure_reply V000B envTranscodeFails ctx0 (videoMsg 7 "clip")
           emptyWorld {| FileID := "file-id"; FileName := "clip" |}
           "videos/file_1.mp4").
  - reflexivity.
  - reflexivity.
  - split; [eexists; reflexivity | split; reflexivity].
  - intros (_ & _ & _ & Hexit). discriminate Hexit.
Defined.

(** X3: when the file metadata lookup fails, the pipeline sends exactly the
    "failed to process" text and does nothing else: no file is created, no
    process started, no video note handed over. *)
Theorem getfile_failure_reply (v : Variant) (E : Env) (ctx : Context)
    (m : Message) (w : World) (att : Attachment) (e : string) :
  attachment m = Some att ->
  env_GetFile E (FileID att) = Err e ->
  sent (handleVideoOf v E ctx m w) = sent w ++ [(chatID m, txtProcessFailed)]
  /\ fs (handleVideoOf v E ctx m w) = fs w
  /\ execs (handleVideoOf v E ctx m w) = execs w
  /\ notes (handleVideoOf v E ctx m w) = notes w.
Proof.
  destruct v; open_handler; pick_attachment m;
    intros Hatt Hget; simplify_eq; cbn [FileID FileName] in *; rewrite Hget;
    repeat split; reflexivity.
Qed.

(** An instance: Telegram rejects the file ID. *)
Lemma getfile_failure_reply_witness :
  sent (handleVideoOf V000A envNoFile ctx0 (videoMsg 7 "clip") emptyWorld)
  = [(7, txtProcessFailed)]
  /\ fs (handleVideoOf V000A envNoFile ctx0 (videoMsg 7 "clip") emptyWorld) = ∅.
Proof.
  destruct (getfile_failure_reply V000A envNoFile ctx0 (videoMsg 7 "clip") emptyWorld
              {| FileID := "file-id"; FileName := "clip" |}
              "Bad Request: invalid file_id" eq_refl eq_refl)
    as (Hsent & Hfs & _).
  split; [exact Hsent | exact Hfs].
Defined.

(** X4: in part_001, when the download and the transcode succeed and the
    output file cannot be opened (the open fails, or ffmpeg left no file),
    the pipeline sends the "failed to open" text after the two progress
    texts, does not attempt the upload, and has deleted both temp files
    when it returns. *)
Theorem open_failure_aborts (E : Env) (ctx : Context) (m : Message)
    (w : World) (att : Attachment) (file : string) :
  let name := Part001.normalize (FileName att) in
  let inp := inputPath E (chatID m) name in
  let out := outputPath E name in
  attachment m = Some att ->
  env_GetFile E (FileID att) = Ok file ->
  downloadOK E file inp ->
  transcodeOK E ctx ->
  is_Some (env_Open E out)
  \/ (env_written E = None /\ out <> inp /\ fs w !! out = None) ->
  sent (Part001.handleVideo E ctx m w)
  = sent w ++ [(chatID m, txtDownloaded); (chatID m, txtProcessed);
               (chatID m, txtOpenFailed)]
  /\ notes (Part001.handleVideo E ctx m w) = notes w
  /\ fs (Part001.handleVideo E ctx m w) !! inp = None
  /\ fs (Part001.handleVideo E ctx m w) !! out = None.
Proof.
  intros name inp out. subst name inp out. unfold inputPath, outputPath.
  revert file.
  open_handler; pick_attachment m;
    intros file Hatt Hget Hdown Htrans Hopen; simplify_eq;
    cbn [FileID FileName] in *; rewrite Hget.
  all: unfold_texts.
  all: walk.
  all: contradict_steps Hdown Htrans.
  all: try (frames; split; [by rewrite <- !app_assoc|];
            split; [reflexivity|];
            split; [apply lookup_delete_eq | apply lookup_delete_inner]).
  all: exfalso.
  all: match goal with
       | H : Part001.fileReader _ _ _ = Ok _ |- _ =>
           unfold Part001.fileReader, os_Open in H; cbn [fs SendMessage] in H
       end.
  all: destruct Hopen as [[e Hopen]|(Hwr & Hne & Hnone)].
  all: try (match goal with H : context [env_Open _ _] |- _ => rewrite Hopen in H end;
            discriminate).
  all: repeat match goal with
       | H : None = None -> fs ?w1 !! _ = _ |- _ =>
           specialize (H eq_refl); rewrite Hwr in H; cbn [fs SendMessage] in H
       end.
  all: match goal with
       | H : forall p, p <> _ -> fs ?w0 !! p = _,
         H' : fs _ !! _ = fs ?w0 !! _ |- _ =>
           rewrite (H _ Hne), Hnone in H'
       end.
  all: match goal with
       | H : fs ?w1 !! ?p = None, H' : context [fs ?w1 !! ?p] |- _ =>
           rewrite H in H'
       end.
  all: by destruct (env_Open E _).
Qed.

(** An instance: the open of the output file is refused. *)
Lemma open_failure_aborts_witness :
  sent (Part001.handleVideo envOpenFails ctx0 (videoMsg 7 "clip") emptyWorld)
  = [(7, txtDownloaded); (7, txtProcessed); (7, txtOpenFailed)]
  /\ notes (Part001.handleVideo envOpenFails ctx0 (videoMsg 7 "clip") emptyWorld) = [].
Proof.
  destruct (open_failure_aborts envOpenFails ctx0 (videoMsg 7 "clip") emptyWorld
              {| FileID := "file-id"; FileName := "clip" |} "videos/file_1.mp4")
    as (Hsent & Hnotes & _).
  - reflexivity.
  - reflexivity.
  - split; [eexists; reflexivity | split; reflexivity].
  - repeat split; reflexivity.
  - left. eexists; reflexivity.
  - split; [exact Hsent | exact Hnotes].
Defined.

(** ** Temp files *)

(** An instance of [input_deleted_after_download]: the upload fails. *)
Lemma input_deleted_after_download_witness :
  fs (handleVideoOf V001 envUploadFails ctx0 (videoMsg 7 "clip") emptyWorld)
    !! "/tmp/input_7_clip.mp4" = None.
Proof.
  apply (input_deleted_after_download V001 envUploadFails ctx0 (videoMsg 7 "clip")
           emptyWorld {| FileID := "file-id"; FileName := "clip" |}
           "videos/file_1.mp4").
  - reflexivity.
  - reflexivity.
  - split; [eexists; reflexivity | split; reflexivity].
Defined.

(** X6: on every exit after a transcode that succeeded - whatever happens
    to the open and the upload - the output temp file is deleted when the
    handler returns. *)
Theorem output_deleted_after_transcode (v : Variant) (E : Env) (ctx : Context)
    (m : Message) (w : World) (att : Attachment) (file : string) :
  let name := normalizeOf v (FileName att) in
  attachment m = Some att ->
  env_GetFile E (FileID att) = Ok file ->
  downloadOK E file (inputPath E (chatID m) name) ->
  transcodeOK E ctx ->
  fs (handleVideoOf v E ctx m w) !! outputPath E name = None.
Proof.
  intros name. subst name. unfold inputPath, outputPath.
  revert file.
  destruct v; open_handler; cbn [normalizeOf]; pick_attachment m;
    intros file Hatt Hget Hdown Htrans; simplify_eq;
    cbn [FileID FileName] in *; rewrite Hget.
  all: walk.
  all: contradict_steps Hdown Htrans.
  all: frames.
  all: apply lookup_delete_inner.
Qed.

(** An instance: the upload is refused by the chat. *)
Lemma output_deleted_after_transcode_witness :
  fs (handleVideoOf V000A envForbidden ctx0 (videoMsg 7 "clip") emptyWorld)
    !! "/tmp/output_clip.mp4" = None.
Proof.
  apply (output_deleted_after_transcode V000A envForbidden ctx0 (videoMsg 7 "clip")
           emptyWorld {| FileID := "file-id"; FileName := "clip" |}
           "videos/file_1.mp4").
  - reflexivity.
  - reflexivity.
  - split; [eexists; reflexivity | split; reflexivity].
  - repeat split; reflexivity.
Defined.

(** X7: a request whose download and transcode succeed leaves the file
    system exactly as it found it, provided its two temp paths were free
    before: nothing accumulates in the temp directory. *)
Theorem temp_dir_restored (v : Variant) (E : Env) (ctx : Context)
    (m : Message) (w : World) (att : Attachment) (file : string) :
  let name := normalizeOf v (FileName att) in
  let inp := inputPath E (chatID m) name in
  let out := outputPath E name in
  attachment m = Some att ->
  env_GetFile E (FileID att) = Ok file ->
  downloadOK E file inp ->
  transcodeOK E ctx ->
  fs w !! inp = None ->
  fs w !! out = None ->
  fs (handleVideoOf v E ctx m w) = fs w.
Proof.
  intros name inp out Hatt Hget Hdown Htrans Hinp Hout.
  apply map_eq. intros p.
  destruct (decide (p = inp)) as [->|Hp1];
    [|destruct (decide (p = out)) as [->|Hp2]].
  3:{ by apply (handler_footprint v E ctx m w att Hatt). }
  all: rewrite ?Hinp, ?Hout; subst name inp out; revert Hinp Hout;
    unfold inputPath, outputPath in *; revert file Hget Hdown.
  all: destruct v; open_handler; cbn [normalizeOf]; revert Hatt; pick_attachment m;
    intros Hatt file Hget Hdown _ _; simplify_eq;
    cbn [FileID FileName] in *; rewrite Hget.
  all: walk.
  all: contradict_steps Hdown Htrans.
  all: frames.
  all: first [apply lookup_delete_eq | apply lookup_delete_inner].
Qed.

(** An instance: a file of another program survives, nothing is added. *)
Lemma temp_dir_restored_witness :
  fs (handleVideoOf V001 envOK ctx0 (videoMsg 7 "clip")
        (with_fs {["/tmp/other" := "kept"]} emptyWorld))
  = {["/tmp/other" := "kept"]}.
Proof.
  etrans.
  - apply (temp_dir_restored V001 envOK ctx0 (videoMsg 7 "clip")
             (with_fs {["/tmp/other" := "kept"]} emptyWorld)
             {| FileID := "file-id"; FileName := "clip" |} "videos/file_1.mp4").
    + reflexivity.
    + reflexivity.
    + split; [eexists; reflexivity | split; reflexivity].
    + repeat split; reflexivity.
    + vm_compute. reflexivity.
    + vm_compute. reflexivity.
  - reflexivity.
Defined.

(** ** What is sent, and to whom *)

(** X8: whatever the environment answers, a handler sends at most three
    text messages and at most one video note, all of them to the chat of
    the message it handles; the video note has length 640. *)
Theorem replies_to_originating_chat (v : Variant) (E : Env) (ctx : Context)
    (m : Message) (w : World) :
  (exists l,
      sent (handleVideoOf v E ctx m w) = sent w ++ l
      /\ (length l <= 3)%nat
      /\ Forall (fun ct => ct.1 = chatID m) l)
  /\ (notes (handleVideoOf v E ctx m w) = notes w
      \/ exists vn,
           notes (handleVideoOf v E ctx m w) = notes w ++ [vn]
           /\ vnChatID vn = chatID m /\ vnLength vn = 640).
Proof.
  destruct v; open_handler; walk; frames.
  all: split;
    [ eexists; split; [rewrite <- ?app_assoc; reflexivity|];
      split; [cbn; lia | repeat constructor]
    | first [ left; reflexivity
            | right; eexists; split; [reflexivity | split; reflexivity] ] ].
Qed.

(** X9: every run of a handler ends in exactly one of two ways: the video
    note was handed over and accepted, and no failure text was sent; or
    exactly one failure text was sent, as the last message of the run.
    Never two failure texts, never silence. *)
Theorem one_terminal_message (v : Variant) (E : Env) (ctx : Context)
    (m : Message) (w : World) :
  exists l,
    sent (handleVideoOf v E ctx m w) = sent w ++ l
    /\ ((notes (handleVideoOf v E ctx m w) <> notes w
         /\ env_SendVideoNote E = None
         /\ filter isFailureText l = [])
        \/ (~ (notes (handleVideoOf v E ctx m w) <> notes w
               /\ env_SendVideoNote E = None)
            /\ exists t, filter isFailureText l = [(chatID m, t)]
                         /\ last l = Some (chatID m, t))).
Proof.
  destruct v; open_handler; walk; frames.
  all: eexists; split; [rewrite <- ?app_assoc; reflexivity|].
  all: first
    [ left; split; [apply app_ne_self|]; split; reflexivity
    | right; split;
      [ first [ intros [Hn _]; by apply Hn
              | intros [_ Hs]; congruence ]
      | eexists; split; reflexivity ] ].
Qed.

Lemma handler_never_says_invalid (v : Variant) (E : Env) (ctx : Context)
    (m : Message) (w : World) :
  attachment m <> None ->
  (chatID m, txtInvalid) ∈ sent (handleVideoOf v E ctx m w) ->
  (chatID m, txtInvalid) ∈ sent w.
Proof.
  unfold txtInvalid.
  destruct v; open_handler; pick_attachment m; try done; intros _.
  all: walk; frames; intros Hin.
  all: repeat (apply elem_of_app in Hin as [Hin|Hin]); try assumption.
  all: apply list_elem_of_singleton in Hin; by injection Hin.
Qed.

(** X10: every goroutine the adapter starts is for the message of the
    update, with the adapter's context, and the message has an attachment;
    so the "send a valid video file" branch of the handler is never taken
    for it: that text is not sent by any run the adapter starts. *)
Theorem validation_text_unreachable (v : Variant) (ctx : Context) (u : Update)
    (w : World) (c : Context) (m : Message) :
  (c, m) ∈ spawned (dispatchOf v ctx u w) ->
  (c, m) ∉ spawned w ->
  c = ctx /\ updMessage u = Some m /\ attachment m <> None
  /\ (forall E w', (chatID m, txtInvalid) ∈ sent (handleVideoOf v E c m w') ->
                   (chatID m, txtInvalid) ∈ sent w').
Proof.
  intros Hin Hnew.
  assert (c = ctx /\ updMessage u = Some m /\ attachment m <> None)
    as (-> & Hu & Hatt).
  { revert Hin.
    destruct v; cbn [dispatchOf];
      unfold Part000A.defaultHandler, Part000B.main_update, Part001.defaultHandler;
      (destruct (updMessage u) as [m0|]; [|done]);
      (destruct (bool_decide (Video m0 <> None) || bool_decide (Document m0 <> None))
         eqn:Hb; [|done]);
      unfold go_handleVideo; cbn [spawned]; intros Hin;
      (apply elem_of_app in Hin as [Hin|Hin]; [done|]);
      apply list_elem_of_singleton in Hin; injection Hin as -> ->;
      (split; [done|]); (split; [done|]);
      unfold attachment; apply orb_true_iff in Hb as [Hb|Hb];
      apply bool_decide_eq_true in Hb; by destruct (Video m0). }
  repeat split; try done.
  intros E w'. by apply handler_never_says_invalid.
Qed.

(** An instance: the adapter of part_001 gets a video from chat 7. *)
Lemma validation_text_unreachable_witness :
  attachment (videoMsg 7 "clip") <> None
  /\ (7, txtInvalid)
       ∉ sent (handleVideoOf V001 envTranscodeFails ctx0 (videoMsg 7 "clip") emptyWorld).
Proof.
  destruct (validation_text_unreachable V001 ctx0
              {| updMessage := Some (videoMsg 7 "clip") |} emptyWorld
              ctx0 (videoMsg 7 "clip")) as (_ & _ & Hatt & Hnever).
  - vm_compute. apply list_elem_of_singleton. reflexivity.
  - vm_compute. apply not_elem_of_nil.
  - split; [exact Hatt|].
    intros Hin. apply Hnever in Hin. by apply elem_of_nil in Hin.
Defined.

(** X11: the adapter itself never touches a file, starts a process or
    hands over a video note. For an update without message it does
    nothing; for a message with an attachment it starts exactly one
    goroutine for that message with its own context and sends nothing; for
    a message without attachment it starts nothing and sends the
    instruction. *)
Theorem dispatch_effects (v : Variant) (ctx : Context) (u : Update) (w : World) :
  fs (dispatchOf v ctx u w) = fs w
  /\ execs (dispatchOf v ctx u w) = execs w
  /\ notes (dispatchOf v ctx u w) = notes w
  /\ match updMessage u with
     | None => dispatchOf v ctx u w = w
     | Some m =>
         match attachment m with
         | Some _ =>
             spawned (dispatchOf v ctx u w) = spawned w ++ [(ctx, m)]
             /\ sent (dispatchOf v ctx u w) = sent w
         | None =>
             spawned (dispatchOf v ctx u w) = spawned w
             /\ sent (dispatchOf v ctx u w) = sent w ++ [(chatID m, txtInstruction)]
         end
     end.
Proof.
  destruct v; cbn [dispatchOf];
    unfold Part000A.defaultHandler, Part000B.main_update, Part001.defaultHandler,
      attachment;
    (destruct (updMessage u) as [m|]; [|done]);
    destruct (Video m), (Document m); done.
Qed.

(** X12: a message that carries a video and a document is handled for its
    video: the document is ignored, the run is the one of the same message
    without the document. *)
Theorem video_takes_precedence (v : Variant) (E : Env) (ctx : Context)
    (m : Message) (w : World) (video : Attachment) :
  Video m = Some video ->
  handleVideoOf v E ctx m w = handleVideoOf v E ctx (withoutDocument m) w.
Proof.
  intros HV.
  destruct v; open_handler; unfold withoutDocument; cbn [chatID Video Document];
    rewrite HV; reflexivity.
Qed.

(** An instance: the temp files are named after the video, not the document. *)
Lemma video_takes_precedence_witness :
  execs (handleVideoOf V001 envOK ctx0 (bothMsg 7 "clip.mov" "notes.pdf") emptyWorld)
  = [ffmpegCmd (Some ctx0) "/tmp/input_7_clip.mov" "/tmp/output_clip.mov"].
Proof.
  rewrite (video_takes_precedence V001 envOK ctx0 (bothMsg 7 "clip.mov" "notes.pdf")
             emptyWorld {| FileID := "video-id"; FileName := "clip.mov" |} eq_refl).
  vm_compute. reflexivity.
Defined.

(** ** File names *)

Lemma rev_app_append (s t acc : string) :
  String.rev_app (s +:+ t) acc = String.rev_app t (String.rev_app s acc).
Proof.
  revert acc. induction s as [|a s IH]; intros acc; [reflexivity|].
  cbn [String.append String.rev_app]. apply IH.
Qed.

Lemma Ext_append_mp4 (name : string) : filepath.Ext (name +:+ ".mp4") = ".mp4".
Proof.
  unfold filepath.Ext, String.rev. rewrite rev_app_append. reflexivity.
Qed.

(** X13: whatever display name is given, the normalized file name is not
    empty and has an extension ([filepath.Ext] is not empty), and
    normalizing it again changes nothing. *)
Theorem normalized_has_extension (v : Variant) (name : string) :
  normalizeOf v name <> ""
  /\ filepath.Ext (normalizeOf v name) <> ""
  /\ normalizeOf v (normalizeOf v name) = normalizeOf v name.
Proof.
  assert (Hn : normalizeOf v name <> ""
               /\ filepath.Ext (normalizeOf v name) <> "").
  { destruct v; cbn [normalizeOf];
      unfold Part000A.normalize, Part000B.normalize, Part001.normalize;
      repeat case_bool_decide; subst; try done;
      rewrite ?Ext_append_mp4; (split; [|done]); by destruct name. }
  destruct Hn as [Hne Hext]. split; [done|]. split; [done|].
  destruct v; cbn [normalizeOf] in *;
    unfold Part000A.normalize, Part000B.normalize, Part001.normalize in *;
    repeat case_bool_decide; subst; try done.
  all: try (rewrite Ext_append_mp4 in *; done).
Qed.

(** ** The download and transcode steps *)

(** X14: [downloadFile] is the same function in all four variants. When it
    returns [nil], the destination file holds the body of the response to
    the GET of https://api.telegram.org/file/bot<token>/<path>, as it is,
    whatever the status code. When the GET fails in the transport or the
    destination cannot be created, it returns an error and leaves the file
    system and everything else untouched. *)
Theorem download_verbatim (E : Env) (filePath dest : string) (w : World) :
  let url := "https://api.telegram.org/file/bot" +:+ env_Token E +:+ "/" +:+ filePath in
  (forall v, downloadFileOf v = MainGo.downloadFile)
  /\ ((MainGo.downloadFile E filePath dest w).1 = None ->
      exists resp,
        env_httpGet E url = Ok resp
        /\ fs (MainGo.downloadFile E filePath dest w).2 !! dest = Some (Body resp))
  /\ ((exists e, env_httpGet E url = Err e) \/ is_Some (env_Create E dest) ->
      (MainGo.downloadFile E filePath dest w).1 <> None
      /\ (MainGo.downloadFile E filePath dest w).2 = w).
Proof.
  intros url. subst url. split; [by intros []|].
  unfold MainGo.downloadFile, os_Create, io_Copy.
  destruct (env_httpGet E _) as [resp|e].
  2:{ split; [done|]. by intros _. }
  destruct (env_Create E dest) as [e|].
  { split; [done|]. by intros _. }
  destruct (env_Copy E) as [[n e]|]; cbn [fst snd fs with_fs].
  - split; [done|]. intros [[? ?]|[? ?]]; done.
  - split.
    + intros _. exists resp. split; [done|]. apply lookup_insert_eq.
    + intros [[? ?]|[? ?]]; done.
Qed.

(** An instance: a 404 page is stored as it is; an unreachable server
    leaves no file. *)
Lemma download_verbatim_witness :
  fs (MainGo.downloadFile env404 "videos/file_1.mp4" "/tmp/input.mp4" emptyWorld).2
    !! "/tmp/input.mp4" = Some "Not Found"
  /\ (MainGo.downloadFile envOffline "videos/file_1.mp4" "/tmp/input.mp4" emptyWorld).2
     = emptyWorld.
Proof.
  destruct (download_verbatim env404 "videos/file_1.mp4" "/tmp/input.mp4" emptyWorld)
    as (_ & Hok & _).
  destruct (download_verbatim envOffline "videos/file_1.mp4" "/tmp/input.mp4" emptyWorld)
    as (_ & _ & Hfail).
  split.
  - destruct (Hok eq_refl) as (resp & Hget & Hfs).
    rewrite Hfs. injection Hget as <-. reflexivity.
  - apply Hfail. left. eexists. reflexivity.
Defined.

(** X15: the transcoder invoker with a context returns [nil] exactly when
    the stderr pipe and the start succeed, the context is not cancelled
    while ffmpeg runs and ffmpeg exits without error. When the pipe cannot
    be opened nothing at all happens (no process is started); when the
    pipe or the start fails no file is touched. The invoker of src/main.go
    returns [nil] exactly when the start succeeds and ffmpeg exits without
    error. *)
Theorem transcoder_failure_modes (v : Variant) (E : Env) (ctx : Context)
    (i o : string) (w : World) :
  ((makeCircularVideoOf v E ctx i o w).1 = None <-> transcodeOK E ctx)
  /\ (is_Some (env_StderrPipe E) ->
      makeCircularVideoOf v E ctx i o w = (env_StderrPipe E, w))
  /\ (is_Some (env_StderrPipe E) \/ is_Some (env_Start E) ->
      fs (makeCircularVideoOf v E ctx i o w).2 = fs w)
  /\ ((MainGo.makeCircularVideo E i o w).1 = None
      <-> env_Start E = None /\ env_exit E = None).
Proof.
  split; [|split; [|split]].
  - destruct (makeCircularVideoOf v E ctx i o w) as [err w1] eqn:Hrun.
    by apply makeCircularVideoOf_inv in Hrun as (_ & _ & _ & _ & _ & Hiff & _).
  - intros [e He].
    destruct v; cbn [makeCircularVideoOf];
      unfold Part000A.makeCircularVideo, Part000B.makeCircularVideo,
        Part001.makeCircularVideo; by rewrite He.
  - intros Hfail.
    destruct v; cbn [makeCircularVideoOf];
      unfold Part000A.makeCircularVideo, Part000B.makeCircularVideo,
        Part001.makeCircularVideo, cmd_Start;
      (destruct (env_StderrPipe E) as [e|]; [reflexivity|]);
      (destruct (env_Start E) as [e|]; [reflexivity|]);
      destruct Hfail as [[? ?]|[? ?]]; done.
  - unfold MainGo.makeCircularVideo, cmd_Run, cmd_Start, cmd_Wait.
    cbn [cmdCtx].
    destruct (env_Start E) as [e|]; cbn [fst].
    + split; [done|]. by intros [? _].
    + destruct (env_exit E); cbn [fst]; split; try done. by intros [_ ?].
Qed.

(** An instance: with everything working the invoker returns [nil]; with
    ffmpeg exiting with status 1 it does not. *)
Lemma transcoder_failure_modes_witness :
  (makeCircularVideoOf V001 envOK ctx0 "/tmp/in.mp4" "/tmp/out.mp4" emptyWorld).1 = None
  /\ (MainGo.makeCircularVideo envTranscodeFails "/tmp/in.mp4" "/tmp/out.mp4"
        emptyWorld).1 <> None.
Proof.
  destruct (transcoder_failure_modes V001 envOK ctx0 "/tmp/in.mp4" "/tmp/out.mp4"
              emptyWorld) as (Hiff & _).
  destruct (transcoder_failure_modes V001 envTranscodeFails ctx0 "/tmp/in.mp4"
              "/tmp/out.mp4" emptyWorld) as (_ & _ & _ & Hmain).
  split.
  - apply Hiff. repeat split; reflexivity.
  - intros Hnil. apply Hmain in Hnil as [_ Hexit]. discriminate Hexit.
Defined.

(** ** src/main.go *)

(** What a call of [makeCircularVideo] of src/main.go does. *)
Lemma main_makeCircularVideo_inv E i o w err w1 :
  MainGo.makeCircularVideo E i o w = (err, w1) ->
  sent w1 = sent w /\ notes w1 = notes w /\ spawned w1 = spawned w
  /\ execs w1 = execs w ++ [ffmpegCmd None i o]
  /\ (forall p, p <> o -> fs w1 !! p = fs w !! p)
  /\ (err = None <-> env_Start E = None /\ env_exit E = None).
Proof.
  unfold MainGo.makeCircularVideo, cmd_Run, cmd_Start, cmd_Wait, leave.
  fold (ffmpegArgs i o). fold (ffmpegCmd None i o).
  destruct (env_Start E) as [e|] eqn:Hstart.
  { intros [= <- <-]. cbn [fs sent notes execs spawned].
    repeat split; try done. intros [? _]; congruence. }
  cbn [cmdCtx cmdArgs ffmpegCmd]. rewrite last_ffmpegArgs.
  destruct (env_written E), (env_exit E) as [e|] eqn:Hexit; intros [= <- <-];
    cbn [fs sent notes execs spawned with_fs];
    repeat split; try done;
    try (intros p Hp; by rewrite lookup_insert_ne);
    intros [_ ?]; congruence.
Qed.

(** X16: the handler of src/main.go never sends a text message, whatever
    goes wrong. Its temp paths are input.mp4 and output.mp4 in the temp
    directory for every message of every chat: it starts at most the one
    command on these two paths, hands over at most one video note (length
    640, for the chat of the message, read from the output path), and
    touches no other file. *)
Theorem main_go_silent_fixed_paths (E : Env) (m : Message) (w w' : World) :
  let inp := filepath.Join [os_TempDir E; "input.mp4"] in
  let out := filepath.Join [os_TempDir E; "output.mp4"] in
  MainGo.handleVideo E m w = Some w' ->
  sent w' = sent w
  /\ spawned w' = spawned w
  /\ (execs w' = execs w \/ execs w' = execs w ++ [ffmpegCmd None inp out])
  /\ (notes w' = notes w
      \/ notes w' = notes w ++ [{| vnChatID := chatID m; vnLength := 640;
                                   vnFile := FilePath out |}])
  /\ (forall p, p <> inp -> p <> out -> fs w' !! p = fs w !! p).
Proof.
  intros inp out. subst inp out. unfold MainGo.handleVideo.
  destruct (Video m) as [[fid fname]|]; [|discriminate]. cbn [FileID].
  destruct (env_GetFile E fid) as [file|e].
  2:{ intros [= <-]. repeat split; auto. }
  destruct (MainGo.downloadFile E file _ w) as [[e|] w0] eqn:Hdl;
    apply downloadFile_inv in Hdl as (Hs0 & Hn0 & He0 & Hsp0 & Hfs0 & _).
  { intros [= <-]. rewrite Hs0, Hn0, He0, Hsp0. repeat split; auto. }
  cbv zeta.
  destruct (MainGo.makeCircularVideo E _ _ w0) as [[e|] w1] eqn:Hmk;
    apply main_makeCircularVideo_inv in Hmk as (Hs1 & Hn1 & Hsp1 & He1 & Hfs1 & _).
  - intros [= <-].
    cbn [return_ fold_left os_Remove with_fs sent notes execs spawned fs].
    rewrite Hs1, Hn1, Hsp1, He1, Hs0, Hn0, He0, Hsp0.
    repeat split; auto.
    intros p Hp1 Hp2. rewrite lookup_delete_ne by done.
    rewrite Hfs1 by done. by apply Hfs0.
  - unfold SendVideoNote. intros [= <-].
    cbn [return_ fold_left os_Remove with_fs sent notes execs spawned fs].
    rewrite Hs1, Hn1, Hsp1, He1, Hs0, Hn0, He0, Hsp0.
    repeat split; auto.
    intros p Hp1 Hp2. rewrite !lookup_delete_ne by done.
    rewrite Hfs1 by done. by apply Hfs0.
Qed.

(** An instance: ffmpeg fails and the user of chat 7 is told nothing. *)
Lemma main_go_silent_fixed_paths_witness :
  exists w',
    MainGo.handleVideo envTranscodeFails (videoMsg 7 "clip") emptyWorld = Some w'
    /\ sent w' = [] /\ notes w' = [].
Proof.
  destruct (MainGo.handleVideo envTranscodeFails (videoMsg 7 "clip") emptyWorld)
    as [w'|] eqn:Hrun; [|discriminate Hrun].
  exists w'. split; [reflexivity|].
  destruct (main_go_silent_fixed_paths envTranscodeFails (videoMsg 7 "clip")
              emptyWorld w' Hrun) as (Hsent & _).
  split; [exact Hsent|].
  vm_compute in Hrun. injection Hrun as <-. reflexivity.
Defined.

(** X17: the handler of src/main.go panics (nil dereference of
    [message.Video]) exactly on a message without a video, and the update
    loop never lets that happen: processing an update never panics. *)
Theorem main_update_never_panics (E : Env) (w : World) :
  (forall u, is_Some (MainGo.main_update E u w))
  /\ (forall m, MainGo.handleVideo E m w = None <-> Video m = None).
Proof.
  assert (Hh : forall m, MainGo.handleVideo E m w = None <-> Video m = None).
  { intros m. unfold MainGo.handleVideo.
    destruct (Video m) as [video|]; [|done].
    split; [|done].
    destruct (env_GetFile E _); [|done].
    destruct (MainGo.downloadFile E _ _ w) as [[?|] w0]; [done|].
    cbv zeta.
    destruct (MainGo.makeCircularVideo E _ _ w0) as [[?|] w1]; [done|].
    by destruct (SendVideoNote E _ w1). }
  split; [|exact Hh].
  intros u. unfold MainGo.main_update.
  destruct (updMessage u) as [m|]; [|by eexists].
  destruct (Video m) as [video|] eqn:HV; [|by eexists].
  destruct (MainGo.handleVideo E m w) as [w'|] eqn:Hrun; [by eexists|].
  apply Hh in Hrun. congruence.
Qed.

(** An instance: a message without video would make the handler panic,
    and the loop skips it. *)
Lemma main_update_never_panics_witness :
  MainGo.handleVideo envOK (textMsg 7) emptyWorld = None
  /\ is_Some (MainGo.main_update envOK {| updMessage := Some (textMsg 7) |} emptyWorld).
Proof.
  destruct (main_update_never_panics envOK emptyWorld) as (Hloop & Hpanic).
  split.
  - apply Hpanic. reflexivity.
  - apply Hloop.
Defined.

(** ** The two go-telegram/bot variants *)

(** X18: part_001 and the first file of part_000 differ only in what they
    do when the output file cannot be opened: in an environment where
    opening never fails and ffmpeg leaves a file, the two handlers do
    exactly the same on every message. *)
Theorem part001_agrees_with_part000A (E : Env) (ctx : Context) (m : Message)
    (w : World) (data : string) :
  (forall p, env_Open E p = None) ->
  env_written E = Some data ->
  Part001.handleVideo E ctx m w = Part000A.handleVideo E ctx m w.
Proof.
  intros Hopen Hwr.
  open_handler.
  change Part000A.normalize with Part001.normalize.
  change Part000A.downloadFile with Part001.downloadFile.
  change Part000A.makeCircularVideo with Part001.makeCircularVideo.
  unfold Part000A.fileReader, Part001.fileReader,
    Part000A.defaultVideoSize, Part001.defaultVideoSize,
    Part000A.voiceMsgRestrictionErr, Part001.voiceMsgRestrictionErr.
  walk; try reflexivity.
  all: match goal with
       | H : None = None -> fs ?w1 !! _ = _ |- _ =>
           specialize (H eq_refl); rewrite Hwr in H
       end.
  all: unfold os_Open; rewrite Hopen; cbn [fs SendMessage].
  all: match goal with H : fs _ !! _ = Some _ |- _ => rewrite H end.
  all: walk; reflexivity.
Qed.

(** An instance: the chat forbids video notes; both variants say so. *)
Lemma part001_agrees_with_part000A_witness :
  Part001.handleVideo envForbidden ctx0 (videoMsg 7 "clip") emptyWorld
  = Part000A.handleVideo envForbidden ctx0 (videoMsg 7 "clip") emptyWorld.
Proof.
  apply (part001_agrees_with_part000A envForbidden ctx0 (videoMsg 7 "clip")
           emptyWorld "round video").
  - intros p. reflexivity.
  - reflexivity.
Defined.
